(** * sun_track: the browser dashboard of the photovoltaic simulation

    A shallow embedding of the two scripts of the dashboard,

      - [static/js/threejs-app.js]: class [PVVisualization], the 3D scene
        (panel, four sensors, sun, light, three clouds);
      - the dashboard script: the socket handler [handleSimulationData], the
        Plotly charts ([initCharts], [updateCharts], [resetCharts]) and the
        controls ([resetSimulation]);

    and the properties of them that the specification states.

    JavaScript numbers are IEEE 754 doubles: they are modelled by Rocq's
    primitive [float], which is the same format with the same rounding, so the
    definitions below compute what the scripts compute.  Code that can throw
    runs in a state monad whose state survives the exception, as the mutated
    objects of a script do. *)

From Stdlib Require Import ZArith Floats Lia.
From stdpp Require Import base option list strings gmap.

Set Warnings "-inexact-float".

(* ================================================================== *)
(** * The JavaScript values the scripts receive *)
(* ================================================================== *)

Module JS.

(** The values a field of a JSON payload can hold, apart from arrays and
    objects, which the payload types below give a place of their own.
    A string carries, beside its text, the number [StringToNumber] reads in
    it ([NaN] for a text that is no numeric literal, as for ["abc"]): the
    scripts never look at the text, they only do arithmetic with it. *)
Inductive value : Type :=
| VUndefined
| VNull
| VBool (b : bool)
| VNumber (n : float)
| VString (s : string) (n : float).

(** [ToNumber], the conversion every arithmetic operator applies. *)
Definition ToNumber (v : value) : float :=
  match v with
  | VUndefined => nan
  | VNull => 0
  | VBool b => if b then 1 else 0
  | VNumber n => n
  | VString _ n => n
  end.

(** [v !== undefined] *)
Definition defined (v : value) : bool :=
  match v with VUndefined => false | _ => true end.

(** [Number.isFinite]: a number that is neither [NaN] nor an infinity. *)
Definition isFinite (n : float) : bool :=
  match Prim2SF n with
  | S754_zero _ | S754_finite _ _ _ => true
  | S754_infinity _ | S754_nan => false
  end.

(** [Math.min] of two numbers: [NaN] if either is, and [-0] below [+0]. *)
Definition Math_min (a b : float) : float :=
  if (is_nan a || is_nan b)%bool then nan
  else if (a <? b)%float then a
  else if (b <? a)%float then b
  else if (is_zero a && get_sign a)%bool then a else b.

(** [Math.sin] and [Math.cos] are implementation-approximated: an engine
    is free in the double it returns, so the scene code takes them as given. *)
Record MathObject : Type := { Math_sin : float -> float; Math_cos : float -> float }.

(** ** Exceptions and the state they leave behind *)

Inductive Error : Type :=
| TypeError (msg : string)
| PlainError (msg : string).

Inductive completion (A : Type) : Type :=
| Normal (a : A)
| Throw (e : Error).
Arguments Normal {A} a.
Arguments Throw {A} e.

(** A script fragment over a mutable state [St]: it ends normally with a
    value or throws, and either way leaves a state. *)
Definition script (St A : Type) : Type := St -> completion A * St.

Definition ret {St A} (a : A) : script St A := fun s => (Normal a, s).
Definition throw {St A} (e : Error) : script St A := fun s => (Throw e, s).
Definition bind {St A B} (m : script St A) (k : A -> script St B) : script St B :=
  fun s => match m s with
           | (Normal a, s') => k a s'
           | (Throw e, s') => (Throw e, s')
           end.
Definition modify {St} (f : St -> St) : script St unit := fun s => (Normal tt, f s).
Definition gets {St A} (f : St -> A) : script St A := fun s => (Normal (f s), s).

(** The state a fragment leaves, and how it ended. *)
Definition exec {St A} (m : script St A) (s : St) : St := snd (m s).
Definition outcome {St A} (m : script St A) (s : St) : completion A := fst (m s).

Definition completed {A} (c : completion A) : bool :=
  match c with Normal _ => true | Throw _ => false end.

(** [m] leaves the part [f] of the state as it was, however it ends. *)
Definition preserves {St A B} (f : St -> B) (m : script St A) : Prop :=
  forall s, f (exec m s) = f s.

(** [m] cannot throw. *)
Definition total {St A} (m : script St A) : Prop :=
  forall s, exists a, outcome m s = Normal a.

(** A fragment over a part [T] of the state [St]. *)
Definition zoom {St T A} (get : St -> T) (set : T -> St -> St) (m : script T A) : script St A :=
  fun s => let '(c, t) := m (get s) in (c, set t s).

(** [array.forEach((value, index) => ...)] *)
Fixpoint forEach {St A} (f : A -> nat -> script St unit) (l : list A) (index : nat)
  : script St unit :=
  match l with
  | [] => ret tt
  | a :: l' => bind (f a index) (fun _ => forEach f l' (S index))
  end.

End JS.

Declare Scope script_scope.
Delimit Scope script_scope with script.
Notation "x <- m ;; k" := (JS.bind m (fun x => k))
  (at level 100, m at next level, k at level 200, right associativity) : script_scope.
Notation "m ;; k" := (JS.bind m (fun _ => k))
  (at level 100, k at level 200, right associativity) : script_scope.

(* ================================================================== *)
(** * The payload of a [simulation_data] message *)
(* ================================================================== *)

Module Telemetry.
Import JS.

(** [current_data]: one instant of the simulation.  A scalar field that is
    absent reads as [undefined]; [sensor_readings] is an array or absent
    ([null] behaves as absent in both scripts). *)
Record Snapshot : Type := {
  time : value;
  total_irradiance : value;
  poa_glb : value;
  panel_tilt : value;
  panel_azimuth : value;
  sun_elevation : value;
  sun_azimuth : value;
  sensor_readings : option (list value)
}.

(** The argument of the [simulation_data] event. *)
Record Message : Type := {
  progress : value;
  summary_stats : option (list (string * value));
  current_data : option Snapshot
}.

(** An entry of the [cloudData] array of [updateClouds]. *)
Record CloudDatum : Type := { cloud_opacity : value }.

(** [array[i]] for an array that may be absent: reading an index of
    [undefined] throws, an index past the end reads [undefined]. *)
Definition index {St} (array : option (list value)) (i : nat) : script St value :=
  match array with
  | None => throw (TypeError "Cannot read properties of undefined")
  | Some l => ret (default VUndefined (l !! i))
  end.

End Telemetry.

(* ================================================================== *)
(** * The arithmetic of the scene *)
(* ================================================================== *)

(** The operators of the expressions that turn the panel and place the
    sun, and the numbers the scripts run them on: doubles, with the sine
    and the cosine the engine provides. *)
Class Arith (num : Type) : Type := {
  lit : Z -> num;
  sub : num -> num -> num;
  mul : num -> num -> num;
  div : num -> num -> num;
  Math_PI : num
}.

Class Trig (num : Type) : Type := {
  Sin : num -> num;
  Cos : num -> num
}.

(** An integer literal as a double (correctly rounded, exact below 2^53). *)
Definition number_of_Z (z : Z) : float :=
  SF2Prim (binary_normalize prec emax z 0 false).

#[export] Instance float_arith : Arith float := {|
  lit := number_of_Z;
  sub := PrimFloat.sub;
  mul := PrimFloat.mul;
  div := PrimFloat.div;
  Math_PI := 3.141592653589793%float
|}.

(** The trigonometry of the engine that runs the scene. *)
Definition engine_trig (Math : JS.MathObject) : Trig float := {|
  Sin := JS.Math_sin Math;
  Cos := JS.Math_cos Math
|}.

(* ================================================================== *)
(** * three.js: the objects the scene is made of *)
(* ================================================================== *)

Module THREE.

Record Vector3 {num : Type} : Type := vec3 { x : num; y : num; z : num }.
Arguments Vector3 : clear implicits.
Arguments vec3 {num} x y z.
Arguments x {num} v.
Arguments y {num} v.
Arguments z {num} v.

Record Color : Type := rgb { r : float; g : float; b : float }.

Record Material : Type := { color : Color; opacity : float }.

(** A mesh holds its material by reference: [material] is the address of
    the material object in the scene's store, and two meshes built from the
    same material object hold the same address. *)
Record Mesh : Type := { position : Vector3 float; material : nat }.

Record Group : Type := { group_position : Vector3 float; children : list Mesh }.

(** [material.color.setRGB(r, g, b)] *)
Definition setRGB (r g b : float) (m : Material) : Material :=
  {| color := rgb r g b; opacity := opacity m |}.

(** [material.opacity = o] *)
Definition setOpacity (o : float) (m : Material) : Material :=
  {| color := color m; opacity := o |}.

Section MathUtils.
Context {num : Type} `{Arith num}.

Definition DEG2RAD : num := div Math_PI (lit 180).

(** [THREE.MathUtils.degToRad] *)
Definition degToRad (degrees : num) : num := mul degrees DEG2RAD.
End MathUtils.

End THREE.

(* ================================================================== *)
(** * [threejs-app.js]: class [PVVisualization] *)
(* ================================================================== *)

Module PVVisualization.
Import JS Telemetry.
#[local] Open Scope float_scope.

(** The state of an instance, as far as the scripts change it after
    construction: geometry, camera, renderer and the materials of panel and
    sun stay as built and are left out.  [materials] is the store of the
    material objects of sensors and cloud parts, by address; [frames] counts
    the calls of [renderer.render]. *)
Record scene : Type := {
  materials : list THREE.Material;
  panel_rotation : THREE.Vector3 float;
  sensors : list THREE.Mesh;
  sun_position : THREE.Vector3 float;
  sunLight_position : THREE.Vector3 float;
  clouds : list THREE.Group;
  frames : nat
}.

Definition with_materials (f : list THREE.Material -> list THREE.Material) (s : scene) : scene :=
  {| materials := f (materials s); panel_rotation := panel_rotation s;
     sensors := sensors s; sun_position := sun_position s;
     sunLight_position := sunLight_position s; clouds := clouds s; frames := frames s |}.

Definition with_panel_rotation (v : THREE.Vector3 float) (s : scene) : scene :=
  {| materials := materials s; panel_rotation := v;
     sensors := sensors s; sun_position := sun_position s;
     sunLight_position := sunLight_position s; clouds := clouds s; frames := frames s |}.

Definition with_sun (sunp light : THREE.Vector3 float) (s : scene) : scene :=
  {| materials := materials s; panel_rotation := panel_rotation s;
     sensors := sensors s; sun_position := sunp;
     sunLight_position := light; clouds := clouds s; frames := frames s |}.

Definition with_clouds (f : list THREE.Group -> list THREE.Group) (s : scene) : scene :=
  {| materials := materials s; panel_rotation := panel_rotation s;
     sensors := sensors s; sun_position := sun_position s;
     sunLight_position := sunLight_position s; clouds := f (clouds s); frames := frames s |}.

Definition with_frames (n : nat) (s : scene) : scene :=
  {| materials := materials s; panel_rotation := panel_rotation s;
     sensors := sensors s; sun_position := sun_position s;
     sunLight_position := sunLight_position s; clouds := clouds s; frames := n |}.

(** ** Construction *)

(** [new THREE.Mesh...Material(...)]: a fresh material object, at the next
    free address of the store. *)
Definition allocate (m : THREE.Material) (store : list THREE.Material)
  : nat * list THREE.Material :=
  (length store, store ++ [m]).

(** [createPanel]: the panel, and the four sensors parented to it.  One
    [sensorMaterial] is created, before the loop, and every sensor mesh is
    built from it. *)
Definition sensorPositions : list (THREE.Vector3 float) :=
  [ THREE.vec3 (-0.9) 0.05 (-0.45);
    THREE.vec3 0.9 0.05 (-0.45);
    THREE.vec3 (-0.9) 0.05 0.45;
    THREE.vec3 0.9 0.05 0.45 ].

Definition createPanel (store : list THREE.Material)
  : THREE.Vector3 float * list THREE.Mesh * list THREE.Material :=
  let rotation := THREE.vec3 0 0 0 in
  let '(sensorMaterial, store) :=
    allocate {| THREE.color := THREE.rgb 1 0 0; THREE.opacity := 1 |} store in
  let sensors :=
    map (fun pos => {| THREE.position := pos; THREE.material := sensorMaterial |})
        sensorPositions in
  (rotation, sensors, store).

(** [createClouds]: three groups of five spheres.  [random k] is what the
    [k]-th call of [Math.random] returns; every sphere draws its size and
    then its three offsets, every group then draws its position. *)
Definition createCloudPart (random : nat -> float) (base : nat)
    (store : list THREE.Material) : THREE.Mesh * list THREE.Material :=
  let size := 0.2 + random base * 0.2 in
  let '(partMaterial, store) :=
    allocate {| THREE.color := THREE.rgb 1 1 1; THREE.opacity := 0.7 |} store in
  ({| THREE.position :=
        THREE.vec3 ((random (base + 1)%nat - 0.5) * 0.8)
                   ((random (base + 2)%nat - 0.5) * 0.3)
                   ((random (base + 3)%nat - 0.5) * 0.8);
      THREE.material := partMaterial |}, store).

Fixpoint createCloudParts (random : nat -> float) (base count : nat)
    (store : list THREE.Material) : list THREE.Mesh * list THREE.Material :=
  match count with
  | O => ([], store)
  | S count' =>
      let '(part, store) := createCloudPart random base store in
      let '(parts, store) := createCloudParts random (base + 4) count' store in
      (part :: parts, store)
  end.

Definition createCloud (random : nat -> float) (base : nat)
    (store : list THREE.Material) : THREE.Group * list THREE.Material :=
  let '(parts, store) := createCloudParts random base 5 store in
  ({| THREE.group_position :=
        THREE.vec3 ((random (base + 20)%nat - 0.5) * 10)
                   (2 + random (base + 21)%nat * 2)
                   ((random (base + 22)%nat - 0.5) * 10);
      THREE.children := parts |}, store).

Fixpoint createClouds (random : nat -> float) (base count : nat)
    (store : list THREE.Material) : list THREE.Group * list THREE.Material :=
  match count with
  | O => ([], store)
  | S count' =>
      let '(cloud, store) := createCloud random base store in
      let '(rest, store) := createClouds random (base + 23) count' store in
      (cloud :: rest, store)
  end.

(** [animate]: asks for the next frame and renders the scene.  Rendering
    reads the scene; the request is the [Frame] tick of [tick] below. *)
Definition animate : script scene unit :=
  modify (fun s => with_frames (S (frames s)) s).

(** The constructor: [initScene] (the light at (10, 10, 10)), [createPanel],
    [createSun] (a mesh at the origin), [createClouds], [animate]. *)
Definition constructor (random : nat -> float) : scene :=
  let sunLight := THREE.vec3 10 10 10 in
  let '(rotation, sensors, store) := createPanel [] in
  let sun := THREE.vec3 0 0 0 in
  let '(clouds, store) := createClouds random 0 3 store in
  exec animate
    {| materials := store; panel_rotation := rotation; sensors := sensors;
       sun_position := sun; sunLight_position := sunLight; clouds := clouds;
       frames := 0 |}.

(** ** Updates *)

(** [updatePanelOrientation(tilt, azimuth)] *)
Definition updatePanelOrientation (tilt azimuth : value) : script scene unit :=
  modify (fun s =>
    with_panel_rotation
      (THREE.vec3 (THREE.degToRad (ToNumber tilt))
                  (THREE.degToRad (ToNumber azimuth - 180))
                  (THREE.z (panel_rotation s))) s).

Section SunPlacement.
Context {num : Type} `{Arith num} `{Trig num}.

(** The coordinates [updateSunPosition] computes from the two angles. *)
Definition sunCoordinates (elevation azimuth : num) : THREE.Vector3 num :=
  let distance := lit 10 in
  let phi := THREE.degToRad (sub (lit 90) elevation) in
  let theta := THREE.degToRad azimuth in
  THREE.vec3 (mul (mul distance (Sin phi)) (Cos theta))
             (mul distance (Cos phi))
             (mul (mul distance (Sin phi)) (Sin theta)).
End SunPlacement.

(** [sensor.material.color.setRGB(1 - intensity, intensity, 0)] for the
    reading at [index]: the colour is written to the material object the
    mesh refers to. *)
Definition colourSensor (value : value) (index : nat) : script scene unit :=
  let intensity := Math_min (ToNumber value / 1000) 1 in
  (sensor <- gets (fun s => sensors s !! index) ;;
   match sensor with
   | None => throw (TypeError "Cannot read properties of undefined (reading material)")
   | Some sensor =>
       modify (with_materials
                 (alter (THREE.setRGB (1 - intensity) intensity 0) (THREE.material sensor)))
   end)%script.

(** [updateSensorReadings(readings)] *)
Definition updateSensorReadings (readings : list value) : script scene unit :=
  forEach colourSensor readings 0.

(** One cloud of [updateClouds]: drift, wrap, and the opacity of its parts
    when [cloudData] has an entry for it. *)
Definition drift (cloud : THREE.Group) : THREE.Group :=
  let position := THREE.group_position cloud in
  let x := THREE.x position + 0.01 in
  let x := if 5 <? x then -5 else x in
  {| THREE.group_position := THREE.vec3 x (THREE.y position) (THREE.z position);
     THREE.children := THREE.children cloud |}.

Definition fade (opacity : float) (parts : list THREE.Mesh)
    (store : list THREE.Material) : list THREE.Material :=
  fold_left (fun store part => alter (THREE.setOpacity opacity) (THREE.material part) store)
            parts store.

Definition updateCloud (cloudData : option (list CloudDatum)) (_ : THREE.Group)
    (index : nat) : script scene unit :=
  (modify (with_clouds (alter drift index)) ;;
   match cloudData with
   | Some entries =>
       match entries !! index with
       | Some entry =>
           let opacity := 0.3 + ToNumber (cloud_opacity entry) * 0.7 in
           modify (fun s =>
             match clouds s !! index with
             | Some cloud => with_materials (fade opacity (THREE.children cloud)) s
             | None => s
             end)
       | None => ret tt
       end
   | None => ret tt
   end)%script.

(** [updateClouds(cloudData)] *)
Definition updateClouds (cloudData : option (list CloudDatum)) : script scene unit :=
  (all <- gets clouds ;; forEach (updateCloud cloudData) all 0)%script.

(** The colour each sensor is drawn with: that of the material it refers to. *)
Definition sensorColours (s : scene) : list (option THREE.Color) :=
  map (fun sensor => THREE.color <$> materials s !! THREE.material sensor) (sensors s).

(** A cloud whose [x] is at most 5. *)
Definition withinBound (cloud : THREE.Group) : bool :=
  THREE.x (THREE.group_position cloud) <=? 5.

(** The gradient the readings are mapped to. *)
Definition gradient (reading : value) : THREE.Color :=
  let intensity := Math_min (ToNumber reading / 1000) 1 in
  THREE.rgb (1 - intensity) intensity 0.

Section Engine.
Variable Math : MathObject.

(** [updateSunPosition(elevation, azimuth)]: the light is moved to a copy
    of the sun's new position. *)
Definition updateSunPosition (elevation azimuth : value) : script scene unit :=
  modify (fun s =>
    let position :=
      @sunCoordinates float _ (engine_trig Math) (ToNumber elevation) (ToNumber azimuth) in
    with_sun position position s).

(** [updateFromData(data)] *)
Definition updateFromData (data : Snapshot) : script scene unit :=
  ((if defined (panel_tilt data) && defined (panel_azimuth data)
    then updatePanelOrientation (panel_tilt data) (panel_azimuth data)
    else ret tt) ;;
   (if defined (sun_elevation data) && defined (sun_azimuth data)
    then updateSunPosition (sun_elevation data) (sun_azimuth data)
    else ret tt) ;;
   match sensor_readings data with
   | Some readings => updateSensorReadings readings
   | None => ret tt
   end ;;
   updateClouds None)%script.

(** What the page does to the scene: the browser calls [animate] on every
    animation frame, the socket handler calls [updateFromData] on every
    Snapshot. *)
Inductive tick : Type :=
| Frame
| Data (data : Snapshot).

Definition step (t : tick) : script scene unit :=
  match t with
  | Frame => animate
  | Data data => updateFromData data
  end.

Definition run (ticks : list tick) (s : scene) : scene :=
  fold_left (fun s t => exec (step t) s) ticks s.
End Engine.

End PVVisualization.

(* ================================================================== *)
(** * Plotly: the calls the dashboard makes *)
(* ================================================================== *)

Module Plotly.
Import JS.

Record Trace : Type := {
  x : list value;
  y : list value;
  name : string;
  dash : option string
}.

Record Layout : Type := { title : string; xaxis : string; yaxis : string }.

Record Plot : Type := { data : list Trace; layout : Layout }.

(** What [Plotly.newPlot] returns: a Promise, resolved with the graph div
    once the plot is drawn. *)
Inductive Promise : Type := Resolves (gd : string).

(** [promise.data]: the trace array is a property of the graph div; the
    Promise has no property of that name, and the read gives [undefined]. *)
Definition Promise_data (promise : Promise) : option (list Trace) := None.

(** The plots of the page, by the id of their element. *)
Abbreviation page := (gmap string Plot).

(** [Plotly.newPlot(gd, data, layout)] *)
Definition newPlot (gd : string) (data : list Trace) (layout : Layout)
  : script page Promise :=
  (modify (insert gd {| data := data; layout := layout |}) ;; ret (Resolves gd))%script.

(** Plotly checks the indices of a call before it changes anything: each
    within the plot's traces, none twice. *)
Definition validIndices (traces : nat) (indices : list nat) : bool :=
  forallb (fun i => i <? traces)%nat indices && bool_decide (NoDup indices).

Definition extend (xs ys : list value) (t : Trace) : Trace :=
  {| x := x t ++ xs; y := y t ++ ys; name := name t; dash := dash t |}.

Fixpoint extendAll (indices : list nat) (xs ys : list (list value))
    (traces : list Trace) : list Trace :=
  match indices, xs, ys with
  | i :: indices', x :: xs', y :: ys' =>
      extendAll indices' xs' ys' (alter (extend x y) i traces)
  | _, _, _ => traces
  end.

(** [Plotly.extendTraces(gd, {x: xs, y: ys}, indices)]: appends [xs[j]] and
    [ys[j]] to the [x] and [y] arrays of trace [indices[j]].  It throws,
    changing nothing, when the element holds no plot, an index is not valid,
    or an update array has not one entry per index. *)
Definition extendTraces (gd : string) (xs ys : list (list value)) (indices : list nat)
  : script page unit :=
  fun p =>
    match p !! gd with
    | None => (Throw (PlainError "No DOM element with this id holds a plot"), p)
    | Some plot =>
        if validIndices (length (data plot)) indices
           && (length xs =? length indices)%nat && (length ys =? length indices)%nat
        then (Normal tt,
              <[gd := {| data := extendAll indices xs ys (data plot);
                         layout := layout plot |}]> p)
        else (Throw (PlainError "indices must be valid indices for gd.data"), p)
    end.

(** [Plotly.deleteTraces(gd, indices)]: removes the traces at [indices];
    the layout stays. *)
Definition removeAll (indices : list nat) (traces : list Trace) : list Trace :=
  omap (fun it => if bool_decide (fst it ∈ indices) then None else Some (snd it))
       (imap (fun i t => (i, t)) traces).

Definition deleteTraces (gd : string) (indices : list nat) : script page unit :=
  fun p =>
    match p !! gd with
    | None => (Throw (PlainError "No DOM element with this id holds a plot"), p)
    | Some plot =>
        if validIndices (length (data plot)) indices
        then (Normal tt,
              <[gd := {| data := removeAll indices (data plot);
                         layout := layout plot |}]> p)
        else (Throw (PlainError "indices must be valid indices for gd.data"), p)
    end.

(** The points of trace [i] of the plot in [gd]. *)
Definition series (p : page) (gd : string) (i : nat) : option (list value * list value) :=
  plot ← p !! gd; t ← data plot !! i; Some (x t, y t).

End Plotly.

(* ================================================================== *)
(** * The dashboard script *)
(* ================================================================== *)

Module Dashboard.
Import JS Telemetry.
#[local] Open Scope float_scope.

(** The globals of the script ([charts], [simulationData]), the instance
    the other script leaves in [pvVisualization] ([null] until it is
    built), and the parts of the document the script writes: the status
    line, the text of the progress bar (the number it shows with one
    decimal), the summary panel (the entries it lists, each with two
    decimals) and the plots.  The width of the progress bar is not among
    them: what [style.width] becomes when it is assigned is decided by the
    CSS parser of the browser, which keeps the old width when the text is
    no valid width. *)
Record World : Type := {
  charts : list (string * Plotly.Promise);
  simulationData : list Snapshot;
  pvVisualization : option PVVisualization.scene;
  status : string;
  progress_text : option float;
  summary : list (string * float);
  plots : Plotly.page
}.

Definition with_charts (c : list (string * Plotly.Promise)) (w : World) : World :=
  {| charts := c; simulationData := simulationData w;
     pvVisualization := pvVisualization w; status := status w;
     progress_text := progress_text w;
     summary := summary w; plots := plots w |}.

Definition with_simulationData (d : list Snapshot) (w : World) : World :=
  {| charts := charts w; simulationData := d;
     pvVisualization := pvVisualization w; status := status w;
     progress_text := progress_text w;
     summary := summary w; plots := plots w |}.

Definition with_pvVisualization (v : option PVVisualization.scene) (w : World) : World :=
  {| charts := charts w; simulationData := simulationData w;
     pvVisualization := v; status := status w;
     progress_text := progress_text w;
     summary := summary w; plots := plots w |}.

Definition with_status (m : string) (w : World) : World :=
  {| charts := charts w; simulationData := simulationData w;
     pvVisualization := pvVisualization w; status := m;
     progress_text := progress_text w;
     summary := summary w; plots := plots w |}.

Definition with_progress_text (t : option float) (w : World) : World :=
  {| charts := charts w; simulationData := simulationData w;
     pvVisualization := pvVisualization w; status := status w;
     progress_text := t;
     summary := summary w; plots := plots w |}.

Definition with_summary (l : list (string * float)) (w : World) : World :=
  {| charts := charts w; simulationData := simulationData w;
     pvVisualization := pvVisualization w; status := status w;
     progress_text := progress_text w;
     summary := l; plots := plots w |}.

Definition with_plots (p : Plotly.page) (w : World) : World :=
  {| charts := charts w; simulationData := simulationData w;
     pvVisualization := pvVisualization w; status := status w;
     progress_text := progress_text w;
     summary := summary w; plots := p |}.

(** A Plotly call, on the plots of the document. *)
Definition plotly {A} (m : script Plotly.page A) : script World A :=
  zoom plots with_plots m.

(** A method call on [pvVisualization], under [if (pvVisualization)]. *)
Definition ifVisualization (m : script PVVisualization.scene unit) : script World unit :=
  fun w =>
    match pvVisualization w with
    | Some scene => let '(c, scene') := m scene in (c, with_pvVisualization (Some scene') w)
    | None => (Normal tt, w)
    end.

(** [initCharts]: four plots, each with its traces empty; [charts] keeps
    what [Plotly.newPlot] returned. *)
Definition trace (name : string) (dash : option string) : Plotly.Trace :=
  {| Plotly.x := []; Plotly.y := []; Plotly.name := name; Plotly.dash := dash |}.

Definition register (key : string) (handle : Plotly.Promise) : script World unit :=
  modify (fun w => with_charts (charts w ++ [(key, handle)]) w).

Definition initCharts : script World unit :=
  (h <- plotly (Plotly.newPlot "irradiance-chart"
          [trace "Total Irradiance" None; trace "Theoretical Maximum" (Some "dot")]
          {| Plotly.title := "Irradiance Over Time"; Plotly.xaxis := "Time (min)";
             Plotly.yaxis := "Irradiance (W/m²)" |}) ;;
   register "irradiance" h ;;
   h <- plotly (Plotly.newPlot "angles-chart"
          [trace "Panel Tilt" None; trace "Panel Azimuth" None;
           trace "Sun Elevation" (Some "dot")]
          {| Plotly.title := "Angles Over Time"; Plotly.xaxis := "Time (min)";
             Plotly.yaxis := "Angle (deg)" |}) ;;
   register "angles" h ;;
   h <- plotly (Plotly.newPlot "sensors-chart"
          [trace "Sensor 1" None; trace "Sensor 2" None;
           trace "Sensor 3" None; trace "Sensor 4" None]
          {| Plotly.title := "Sensor Readings Over Time"; Plotly.xaxis := "Time (min)";
             Plotly.yaxis := "Irradiance (W/m²)" |}) ;;
   register "sensors" h ;;
   h <- plotly (Plotly.newPlot "efficiency-chart"
          [trace "Efficiency" None]
          {| Plotly.title := "System Efficiency Over Time"; Plotly.xaxis := "Time (min)";
             Plotly.yaxis := "Efficiency (%)" |}) ;;
   register "efficiency" h)%script.

(** [updateStatus(message)] *)
Definition updateStatus (message : string) : script World unit :=
  modify (with_status message).

(** [updateProgress(percent)]: the assignment to [style.width] comes first
    and cannot throw; it writes to no part of the page that is kept here.
    [toFixed] is a method of numbers only. *)
Definition updateProgress (percent : value) : script World unit :=
  match percent with
  | VNumber n => modify (with_progress_text (Some n))
  | _ => throw (TypeError "percent.toFixed is not a function")
  end.

(** [updateSummaryStats(stats)]: the entries are rendered one by one and
    the panel is assigned once all are. *)
Fixpoint renderStats {St} (stats : list (string * value)) : script St (list (string * float)) :=
  match stats with
  | [] => ret []
  | (key, VNumber n) :: rest => (html <- renderStats rest ;; ret ((key, n) :: html))%script
  | (key, _) :: _ => throw (TypeError "value.toFixed is not a function")
  end.

Definition updateSummaryStats (stats : list (string * value)) : script World unit :=
  (html <- renderStats stats ;; modify (with_summary html))%script.

(** [updateCharts(data)] *)
Definition updateCharts (data : Snapshot) : script Plotly.page unit :=
  let timeMin := VNumber (ToNumber (time data) / 60) in
  (Plotly.extendTraces "irradiance-chart"
     [[timeMin]; [timeMin]]
     [[total_irradiance data]; [poa_glb data]] [0; 1]%nat ;;
   Plotly.extendTraces "angles-chart"
     [[timeMin]; [timeMin]; [timeMin]]
     [[panel_tilt data]; [panel_azimuth data]; [sun_elevation data]] [0; 1; 2]%nat ;;
   r0 <- index (sensor_readings data) 0 ;;
   r1 <- index (sensor_readings data) 1 ;;
   r2 <- index (sensor_readings data) 2 ;;
   r3 <- index (sensor_readings data) 3 ;;
   Plotly.extendTraces "sensors-chart"
     [[timeMin]; [timeMin]; [timeMin]; [timeMin]]
     [[r0]; [r1]; [r2]; [r3]] [0; 1; 2; 3]%nat ;;
   let efficiency :=
     VNumber (100 * ToNumber (total_irradiance data) / ToNumber (poa_glb data)) in
   Plotly.extendTraces "efficiency-chart" [[timeMin]] [[efficiency]] [0]%nat)%script.

(** [resetCharts]: for every key of [charts], the traces [0 .. n-1] of the
    plot of that name are deleted, where [n] is [charts[chartId].data.length].
    The entry is the Promise [initCharts] stored; reading [length] of a
    [data] that is [undefined] throws. *)
Definition dataLength {St} (handle : Plotly.Promise) : script St nat :=
  match Plotly.Promise_data handle with
  | Some data => ret (length data)
  | None => throw (TypeError "Cannot read properties of undefined (reading length)")
  end.

Definition resetChart (entry : string * Plotly.Promise) (_ : nat) : script World unit :=
  (n <- dataLength (snd entry) ;;
   plotly (Plotly.deleteTraces (fst entry) (seq 0 n)))%script.

Definition resetCharts : script World unit :=
  (registry <- gets charts ;; forEach resetChart registry 0)%script.

(** [resetSimulation] *)
Definition resetSimulation : script World unit :=
  (modify (with_simulationData []) ;;
   resetCharts ;;
   updateStatus "Simulation reset" ;;
   updateProgress (VNumber 0) ;;
   updateSummaryStats [])%script.

Section Engine.
Variable Math : MathObject.

(** [handleSimulationData(data)] *)
Definition handleSimulationData (data : Message) : script World unit :=
  (updateProgress (progress data) ;;
   match summary_stats data with
   | Some stats => updateSummaryStats stats
   | None => ret tt
   end ;;
   match current_data data with
   | Some current =>
       modify (fun w => with_simulationData (simulationData w ++ [current]) w) ;;
       ifVisualization (PVVisualization.updateFromData Math current) ;;
       plotly (updateCharts current)
   | None => ret tt
   end)%script.

(** The socket delivers the messages one at a time; an exception ends
    the handling of one message, not the page. *)
Definition receive (messages : list Message) (w : World) : World :=
  fold_left (fun w data => exec (handleSimulationData data) w) messages w.
End Engine.

(** ** What the statements about the script speak of *)

(** The value [updateCharts] sends to each trace, by plot and index. *)
Definition plotted (data : Snapshot) : list (string * nat * value) :=
  let reading i := default VUndefined (sensor_readings data ≫= fun l => l !! i) in
  [ ("irradiance-chart", 0%nat, total_irradiance data);
    ("irradiance-chart", 1%nat, poa_glb data);
    ("angles-chart", 0%nat, panel_tilt data);
    ("angles-chart", 1%nat, panel_azimuth data);
    ("angles-chart", 2%nat, sun_elevation data);
    ("sensors-chart", 0%nat, reading 0%nat);
    ("sensors-chart", 1%nat, reading 1%nat);
    ("sensors-chart", 2%nat, reading 2%nat);
    ("sensors-chart", 3%nat, reading 3%nat);
    ("efficiency-chart", 0%nat,
      VNumber (100 * ToNumber (total_irradiance data) / ToNumber (poa_glb data))) ].

(** Trace [i] of the plot in [gd] has gained the one point (x, y). *)
Definition gained (before after : Plotly.page) (x : value) (entry : string * nat * value)
  : Prop :=
  let '(gd, i, y) := entry in
  exists xs ys,
    Plotly.series before gd i = Some (xs, ys) /\
    Plotly.series after gd i = Some (xs ++ [x], ys ++ [y]).

(** Trace [i] of the plot in [gd] is as it was. *)
Definition untouched (before after : Plotly.page) (entry : string * nat * value) : Prop :=
  let '(gd, i, _) := entry in Plotly.series after gd i = Plotly.series before gd i.

(** The four plots are drawn, each with the traces [initCharts] gave it. *)
Definition traces (p : Plotly.page) (gd : string) : option nat :=
  (fun plot => length (Plotly.data plot)) <$> p !! gd.

Definition drawn (p : Plotly.page) : Prop :=
  traces p "irradiance-chart" = Some 2%nat /\
  traces p "angles-chart" = Some 3%nat /\
  traces p "sensors-chart" = Some 4%nat /\
  traces p "efficiency-chart" = Some 1%nat.

(** Titles and axis labels of the plots. *)
Definition layouts (p : Plotly.page) : gmap string Plotly.Layout :=
  Plotly.layout <$> p.

(** [poa_glb] is zero, or absent. *)
Definition zeroOrAbsent (v : value) : bool :=
  match v with
  | VUndefined | VNull => true
  | VNumber n => is_zero n
  | _ => false
  end.

(** [time] is a finite number, at least 0. *)
Definition validTime (v : value) : bool :=
  match v with
  | VNumber n => isFinite n && (0 <=? n)
  | _ => false
  end.

(** The progress and the statistics of a message can be displayed: they
    are numbers, and the handler gets past [updateProgress] and
    [updateSummaryStats]. *)
Definition isNumber (v : value) : bool :=
  match v with VNumber _ => true | _ => false end.

Definition displayable (data : Message) : bool :=
  isNumber (progress data) &&
  match summary_stats data with
  | Some stats => forallb (fun entry => isNumber (snd entry)) stats
  | None => true
  end.

(** What a message adds to [simulationData]. *)
Definition stored (data : Message) : list Snapshot :=
  if displayable data then option_list (current_data data) else [].

(** The page before any script has run, and once both [DOMContentLoaded]
    listeners have: the scene is built and the charts are drawn. *)
Definition blank : World :=
  {| charts := []; simulationData := []; pvVisualization := None;
     status := EmptyString; progress_text := None;
     summary := []; plots := ∅ |}.

Definition loaded (random : nat -> float) : World :=
  exec initCharts
    (with_pvVisualization (Some (PVVisualization.constructor random)) blank).

End Dashboard.

(* ================================================================== *)
(** * What further statements about the scene speak of *)
(* ================================================================== *)

Module SceneShape.
Import JS Telemetry PVVisualization.
#[local] Open Scope float_scope.

(** The build of a scene: how many material objects it has, its sensors,
    and of every cloud its height, its depth and its parts. *)
Definition structure (s : scene)
  : nat * list THREE.Mesh * list (float * float * list THREE.Mesh) :=
  (length (materials s), sensors s,
   map (fun cloud => (THREE.y (THREE.group_position cloud),
                      THREE.z (THREE.group_position cloud),
                      THREE.children cloud))
       (clouds s)).

(** The addresses of the materials the meshes of a scene refer to: those of
    the sensors, and those of the parts of each cloud. *)
Definition addresses (s : scene) : list nat * list (list nat) :=
  (map THREE.material (sensors s),
   map (fun cloud => map THREE.material (THREE.children cloud)) (clouds s)).

(** The opacity [updateClouds] leaves the parts of cloud [i] with: the one
    computed from its entry of [cloudData], or the 0.7 they were created
    with. *)
Definition coverage (cloudData : list CloudDatum) (i : nat) : float :=
  match cloudData !! i with
  | Some entry => 0.3 + ToNumber (cloud_opacity entry) * 0.7
  | None => 0.7
  end.

End SceneShape.

(* ================================================================== *)
(** * What further statements about the dashboard speak of *)
(* ================================================================== *)

Module History.
Import JS Telemetry Dashboard.
#[local] Open Scope float_scope.

(** The entries of a summary, as the panel lists them. *)
Definition numbers (stats : list (string * value)) : list (string * float) :=
  map (fun entry => (fst entry, ToNumber (snd entry))) stats.

(** The page once the progress and the statistics of a displayable message
    are shown. *)
Definition shown (data : Message) (w : World) : World :=
  let w1 := with_progress_text (Some (ToNumber (progress data))) w in
  match summary_stats data with
  | Some stats => with_summary (numbers stats) w1
  | None => w1
  end.

(** The branch of [handleSimulationData] under [if (data.current_data)]. *)
Definition consume (Math : MathObject) (current : Snapshot) : script World unit :=
  (modify (fun w => with_simulationData (simulationData w ++ [current]) w) ;;
   ifVisualization (PVVisualization.updateFromData Math current) ;;
   plotly (updateCharts current))%script.

(** In every plot all traces have the same x-values, and as many y-values. *)
Definition aligned (p : Plotly.page) : Prop :=
  forall gd plot, p !! gd = Some plot ->
    exists xs, Forall (fun t => Plotly.x t = xs /\ length (Plotly.y t) = length xs)
                      (Plotly.data plot).

(** A message the loaded page handles to the end: it is displayable, and
    its Snapshot, if it has one, has readings, four at most. *)
Definition chartable (data : Message) : bool :=
  displayable data &&
  match current_data data with
  | Some current =>
      match sensor_readings current with
      | Some readings => (length readings <=? 4)%nat
      | None => false
      end
  | None => true
  end.

(** The ten series, in the order of [plotted], the x and the y each gains
    from a Snapshot. *)
Definition seriesOf : list (string * nat) :=
  [ ("irradiance-chart", 0%nat); ("irradiance-chart", 1%nat);
    ("angles-chart", 0%nat); ("angles-chart", 1%nat); ("angles-chart", 2%nat);
    ("sensors-chart", 0%nat); ("sensors-chart", 1%nat);
    ("sensors-chart", 2%nat); ("sensors-chart", 3%nat);
    ("efficiency-chart", 0%nat) ].

Definition xOf (data : Snapshot) : value := VNumber (ToNumber (time data) / 60).

Definition yOf (k : nat) (data : Snapshot) : value :=
  default VUndefined (snd <$> plotted data !! k).

(** Every series holds one point for each Snapshot of the history, in the
    order of the history. *)
Definition replays (history : list Snapshot) (p : Plotly.page) : Prop :=
  forall k gd i, seriesOf !! k = Some (gd, i) ->
    Plotly.series p gd i = Some (map xOf history, map (yOf k) history).

(** What the data of the simulation has made of the page: the history,
    the scene and the plots. *)
Definition feed (w : World) : list Snapshot * option PVVisualization.scene * Plotly.page :=
  (simulationData w, pvVisualization w, plots w).

End History.

(* ================================================================== *)
(** * The dashboard script: controls and socket events *)
(* ================================================================== *)

Module Controls.
Import JS Telemetry Dashboard.

(** The dashboard together with its two buttons: what [disabled] is on
    [start-btn] and on [pause-btn]. *)
Record Page : Type := {
  world : World;
  start_disabled : bool;
  pause_disabled : bool
}.

Definition with_world (w : World) (p : Page) : Page :=
  {| world := w; start_disabled := start_disabled p; pause_disabled := pause_disabled p |}.

Definition with_start_disabled (b : bool) (p : Page) : Page :=
  {| world := world p; start_disabled := b; pause_disabled := pause_disabled p |}.

Definition with_pause_disabled (b : bool) (p : Page) : Page :=
  {| world := world p; start_disabled := start_disabled p; pause_disabled := b |}.

(** A function of the script that works on the dashboard alone. *)
Definition dashboard {A} (m : script World A) : script Page A :=
  zoom world with_world m.

(** [pauseSimulation] *)
Definition pauseSimulation : script Page unit :=
  (dashboard (updateStatus "Simulation paused") ;;
   modify (with_start_disabled false) ;;
   modify (with_pause_disabled true))%script.

(** The listeners [initSocket] installs. *)
Definition onConnect : script Page unit :=
  dashboard (updateStatus "Connected to server").

Definition onSimulationComplete : script Page unit :=
  (dashboard (updateStatus "Simulation completed") ;;
   modify (with_start_disabled false) ;;
   modify (with_pause_disabled true))%script.

Definition onDisconnect : script Page unit :=
  dashboard (updateStatus "Disconnected from server").

(** How the request of [sendStartRequest] ends: the fetch fails, or a
    response arrives, with some HTTP status and a body that is JSON
    ([Some]) or is not. *)
Inductive reply : Type :=
| NetworkFailure
| Response (status : nat) (json : option value).

(** [promise.catch(handler)]: the handler runs when a step before it threw
    or rejected. *)
Definition catch {St} (m : script St unit) (handler : Error -> script St unit)
  : script St unit :=
  fun s => match m s with
           | (Throw e, s') => handler e s'
           | done => done
           end.

(** The chain of [sendStartRequest] from the moment the request ends:
    [.then(response => response.json())], which rejects without a JSON body,
    [.then(data => ...)], and [.catch(error => ...)]. *)
Definition sendStartRequest_settled (r : reply) : script Page unit :=
  catch
    (match r with
     | Response _ (Some data) =>
         dashboard (updateStatus "Simulation started") ;;
         modify (with_start_disabled true) ;;
         modify (with_pause_disabled false) ;;
         dashboard resetCharts
     | Response _ None => throw (PlainError "Unexpected token in JSON")
     | NetworkFailure => throw (TypeError "Failed to fetch")
     end)%script
    (fun _ => dashboard (updateStatus "Error starting simulation")).

Section Engine.
Variable Math : MathObject.

(** What happens on the page, one event at a time: the socket's events, the
    clicks on Pause and Reset, and the end of a start request.  A listener
    that throws ends that event only. *)
Inductive event : Type :=
| Connect
| Disconnect
| SimulationData (data : Message)
| SimulationComplete
| Pause
| Reset
| StartSettled (r : reply).

Definition listener (e : event) : script Page unit :=
  match e with
  | Connect => onConnect
  | Disconnect => onDisconnect
  | SimulationData data => dashboard (handleSimulationData Math data)
  | SimulationComplete => onSimulationComplete
  | Pause => pauseSimulation
  | Reset => dashboard resetSimulation
  | StartSettled r => sendStartRequest_settled r
  end.

Definition run (events : list event) (p : Page) : Page :=
  fold_left (fun p e => exec (listener e) p) events p.
End Engine.

(** An event after which the buttons are set: a pause, the completion of the
    simulation, or a start request answered with JSON. *)
Definition setsButtons (e : event) : bool :=
  match e with
  | Pause | SimulationComplete | StartSettled (Response _ (Some _)) => true
  | _ => false
  end.

(** Exactly one of the two buttons is enabled. *)
Definition exclusive (p : Page) : bool :=
  xorb (start_disabled p) (pause_disabled p).

(** The events that reach the history, the scene or the plots. *)
Definition carriesData (e : event) : bool :=
  match e with
  | SimulationData _ | Reset => true
  | _ => false
  end.

End Controls.

(* ================================================================== *)
(** * Inputs the statements below are evaluated on *)
(* ================================================================== *)

Module Sample.
Import JS Telemetry.
#[local] Open Scope float_scope.

(** A run of [Math.random]: every call returns 0.5, but the calls that
    place the first and the third cloud. *)
Definition random (k : nat) : float :=
  match k with
  | 20%nat => 0.25
  | 66%nat => 0.9995
  | _ => 0.5
  end.

(** The sine and the cosine of an engine that rounds them correctly, at
    the two arguments the sun at the zenith and the sun on the horizon
    take: 0, and 1.5707963267948966, the double of 90 Math.PI / 180, which
    is below pi / 2 and has the cosine 6.123233995736766e-17.  The table
    holds no other argument. *)
Definition engine : MathObject :=
  {| Math_sin := fun x => if x =? 0 then x
                          else if x =? 1.5707963267948966 then 1 else nan;
     Math_cos := fun x => if x =? 0 then 1
                          else if x =? 1.5707963267948966 then 6.123233995736766e-17
                          else nan |}.

Definition scene : PVVisualization.scene := PVVisualization.constructor random.
Definition world : Dashboard.World := Dashboard.loaded random.

Definition readings : list value :=
  [VNumber 0; VNumber 500; VNumber 1000; VNumber 1500].

(** A complete Snapshot, one minute into the run. *)
Definition complete : Snapshot :=
  {| time := VNumber 60; total_irradiance := VNumber 500; poa_glb := VNumber 800;
     panel_tilt := VNumber 30; panel_azimuth := VNumber 180;
     sun_elevation := VNumber 45; sun_azimuth := VNumber 120;
     sensor_readings := Some readings |}.

(** The same at night: nothing reaches the plane of the array. *)
Definition night : Snapshot :=
  {| time := VNumber 60; total_irradiance := VNumber 500; poa_glb := VNumber 0;
     panel_tilt := VNumber 30; panel_azimuth := VNumber 180;
     sun_elevation := VNumber 45; sun_azimuth := VNumber 120;
     sensor_readings := Some readings |}.

(** A Snapshot without [panel_tilt] and without the sun's angles. *)
Definition untilted : Snapshot :=
  {| time := VNumber 60; total_irradiance := VNumber 500; poa_glb := VNumber 800;
     panel_tilt := VUndefined; panel_azimuth := VNumber 90;
     sun_elevation := VUndefined; sun_azimuth := VUndefined;
     sensor_readings := Some readings |}.

(** A Snapshot whose [time] is the string ["abc"]. *)
Definition malformed : Snapshot :=
  {| time := VString "abc" nan; total_irradiance := VNumber 500; poa_glb := VNumber 800;
     panel_tilt := VUndefined; panel_azimuth := VNumber 90;
     sun_elevation := VUndefined; sun_azimuth := VUndefined;
     sensor_readings := Some readings |}.

Definition message (data : Snapshot) : Message :=
  {| progress := VNumber 50; summary_stats := None; current_data := Some data |}.

(** The page after one Snapshot has been charted and the panel turned. *)
Definition used : Dashboard.World :=
  Dashboard.with_simulationData [complete]
    (Dashboard.with_plots
       (exec (Dashboard.updateCharts complete) (Dashboard.plots world))
       (Dashboard.with_pvVisualization
          (Some (exec (PVVisualization.updatePanelOrientation (VNumber 30) (VNumber 180))
                      scene))
          world)).

End Sample.

(** A statement about one input that holds whatever [Math.sin] and
    [Math.cos] the engine provides. *)
Definition whatever_the_engine (P : JS.MathObject -> Prop) : Prop :=
  forall Math : JS.MathObject, P Math.

(* ================================================================== *)
(** * Doubles: what the proofs need of IEEE 754 *)
(* ================================================================== *)

Section Doubles.

(** Rounding never turns a non-negative significand into [NaN]. *)
Lemma shr_1_nonneg mrs : (0 <= shr_m mrs)%Z -> (0 <= shr_m (shr_1 mrs))%Z.
Proof.
  destruct mrs as [m r s]; simpl. destruct m as [|p|p]; simpl; try lia.
  destruct p; simpl; lia.
Qed.

Lemma iter_shr_1_nonneg p : forall mrs,
  (0 <= shr_m mrs)%Z -> (0 <= shr_m (SpecFloat.iter_pos shr_1 p mrs))%Z.
Proof.
  induction p as [p IH|p IH|]; intros mrs Hm; simpl.
  - apply IH, IH, shr_1_nonneg, Hm.
  - apply IH, IH, Hm.
  - apply shr_1_nonneg, Hm.
Qed.

Lemma shr_fexp_nonneg prec emax m e l :
  (0 <= m)%Z -> (0 <= shr_m (fst (shr_fexp prec emax m e l)))%Z.
Proof.
  intros Hm. unfold shr_fexp, shr.
  destruct (fexp prec emax (Zdigits2 m + e) - e)%Z; simpl;
    try (destruct l as [|[]]; simpl; exact Hm).
  apply iter_shr_1_nonneg. destruct l as [|[]]; simpl; exact Hm.
Qed.

Lemma round_nearest_even_nonneg m l : (0 <= m)%Z -> (0 <= round_nearest_even m l)%Z.
Proof.
  intros Hm. destruct l as [|[]]; simpl; try lia. destruct (Z.even m); lia.
Qed.

Lemma binary_round_aux_not_nan prec emax sx mx ex lx :
  (0 <= mx)%Z -> binary_round_aux prec emax sx mx ex lx <> S754_nan.
Proof.
  intros Hm. unfold binary_round_aux.
  pose proof (shr_fexp_nonneg prec emax mx ex lx Hm) as H1.
  destruct (shr_fexp prec emax mx ex lx) as [mrs' e']. simpl in H1.
  pose proof (shr_fexp_nonneg prec emax _ e' loc_Exact
                (round_nearest_even_nonneg _ (loc_of_shr_record mrs') H1)) as H2.
  destruct (shr_fexp prec emax
              (round_nearest_even (shr_m mrs') (loc_of_shr_record mrs')) e' loc_Exact)
    as [mrs'' e'']. simpl in H2.
  destruct (shr_m mrs''); try lia; try discriminate.
  destruct (e'' <=? emax - prec)%Z; discriminate.
Qed.

Lemma binary_normalize_not_nan prec emax m e sz :
  binary_normalize prec emax m e sz <> S754_nan.
Proof.
  unfold binary_normalize. destruct m; try discriminate; unfold binary_round;
    destruct (shl_align _ _ _); apply binary_round_aux_not_nan; lia.
Qed.

(** Adding a finite constant gives [NaN] only from [NaN]. *)
Lemma SFadd_finite_not_nan prec emax a s m e :
  a <> S754_nan -> SFadd prec emax a (S754_finite s m e) <> S754_nan.
Proof.
  intros Ha. destruct a; simpl; try discriminate; try congruence.
  apply binary_normalize_not_nan.
Qed.

Lemma SFcompare_antisym a b :
  SFcompare b a = option_map CompOpp (SFcompare a b).
Proof.
  destruct a as [sa|sa| |sa ma ea], b as [sb|sb| |sb mb eb]; simpl; try reflexivity;
    try (destruct sa; reflexivity); try (destruct sb; reflexivity);
    try (destruct sa, sb; reflexivity).
  destruct sa, sb; simpl; try reflexivity;
    rewrite (Z.compare_antisym ea eb); destruct (ea ?= eb)%Z; simpl; try reflexivity.
  - f_equal. f_equal. exact (eq_sym (Pos.compare_cont_antisym ma mb Eq)).
  - f_equal. exact (eq_sym (Pos.compare_cont_antisym ma mb Eq)).
Qed.

(** Apart from [NaN], a number that is not above another is at most it. *)
Lemma SF_not_above_is_below (a b : spec_float) :
  a <> S754_nan -> b <> S754_nan -> SFltb b a = false -> SFleb a b = true.
Proof.
  unfold SFltb, SFleb. rewrite (SFcompare_antisym a b). intros Ha Hb.
  destruct (SFcompare a b) as [[]|] eqn:E; simpl; try congruence.
  destruct a, b; simpl in E; congruence.
Qed.

Lemma not_above_is_below (u v : float) :
  Prim2SF u <> S754_nan -> Prim2SF v <> S754_nan ->
  (v <? u)%float = false -> (u <=? v)%float = true.
Proof.
  intros Hu Hv Hlt. rewrite FloatAxioms.leb_spec. rewrite FloatAxioms.ltb_spec in Hlt.
  now apply SF_not_above_is_below.
Qed.

Lemma leb_not_nan (u v : float) : (u <=? v)%float = true -> Prim2SF u <> S754_nan.
Proof. intros Hle Hn. rewrite FloatAxioms.leb_spec, Hn in Hle. discriminate. Qed.

(** The quotient by a zero, or by [NaN], is an infinity or [NaN]. *)
Lemma div_by_zero_not_finite (a b : float) :
  match Prim2SF b with S754_zero _ | S754_nan => True | _ => False end ->
  JS.isFinite (a / b) = false.
Proof.
  unfold JS.isFinite. rewrite FloatAxioms.div_spec. unfold SF64div.
  destruct (Prim2SF a), (Prim2SF b); simpl; intros Hb; try reflexivity; contradiction.
Qed.

Lemma is_zero_spec (n : float) :
  is_zero n = true -> exists s, Prim2SF n = S754_zero s.
Proof.
  unfold is_zero. rewrite FloatAxioms.eqb_spec. change (Prim2SF 0) with (S754_zero false).
  unfold SFeqb. destruct (Prim2SF n) as [s|s| |s m e]; simpl; try discriminate.
  - eauto.
  - destruct s; discriminate.
  - destruct s; discriminate.
Qed.

End Doubles.

(* ================================================================== *)
(** * Scripts: what a fragment leaves alone *)
(* ================================================================== *)

Section Frames.
Import JS.
Context {St : Type}.

Lemma exec_bind {A B} (m : script St A) (k : A -> script St B) s :
  exec (bind m k) s =
  match outcome m s with
  | Normal a => exec (k a) (exec m s)
  | Throw _ => exec m s
  end.
Proof. unfold exec, outcome, bind. destruct (m s) as [[a|e] s']; reflexivity. Qed.

Lemma outcome_bind {A B} (m : script St A) (k : A -> script St B) s :
  outcome (bind m k) s =
  match outcome m s with
  | Normal a => outcome (k a) (exec m s)
  | Throw e => Throw e
  end.
Proof. unfold exec, outcome, bind. destruct (m s) as [[a|e] s']; reflexivity. Qed.

Lemma preserves_ret {A B} (f : St -> B) (a : A) : preserves f (ret a).
Proof. intros s. reflexivity. Qed.

Lemma preserves_throw {A B} (f : St -> B) e : preserves f (@throw St A e).
Proof. intros s. reflexivity. Qed.

Lemma preserves_gets {A B} (f : St -> B) (g : St -> A) : preserves f (gets g).
Proof. intros s. reflexivity. Qed.

Lemma preserves_modify {B} (f : St -> B) (g : St -> St) :
  (forall s, f (g s) = f s) -> preserves f (modify g).
Proof. intros Hg s. apply Hg. Qed.

Lemma preserves_bind {A B C} (f : St -> C) (m : script St A) (k : A -> script St B) :
  preserves f m -> (forall a, preserves f (k a)) -> preserves f (bind m k).
Proof.
  intros Hm Hk s. rewrite exec_bind.
  destruct (outcome m s); [rewrite Hk|]; apply Hm.
Qed.

Lemma preserves_forEach {A B} (f : St -> B) (body : A -> nat -> script St unit) l :
  (forall a i, preserves f (body a i)) -> forall i, preserves f (forEach body l i).
Proof.
  intros Hbody. induction l as [|a l IH]; intros i; simpl.
  - apply preserves_ret.
  - apply preserves_bind; [apply Hbody | intros _; apply IH].
Qed.

Lemma total_ret {A} (a : A) : total (@ret St A a).
Proof. intros s. eexists. reflexivity. Qed.

Lemma total_modify (g : St -> St) : total (modify g).
Proof. intros s. eexists. reflexivity. Qed.

Lemma total_gets {A} (g : St -> A) : total (gets g).
Proof. intros s. eexists. reflexivity. Qed.

Lemma total_bind {A B} (m : script St A) (k : A -> script St B) :
  total m -> (forall a, total (k a)) -> total (bind m k).
Proof.
  intros Hm Hk s. rewrite outcome_bind. destruct (Hm s) as [a ->]. apply Hk.
Qed.

Lemma total_forEach {A} (body : A -> nat -> script St unit) l :
  (forall a i, total (body a i)) -> forall i, total (forEach body l i).
Proof.
  intros Hbody. induction l as [|a l IH]; intros i; simpl.
  - apply total_ret.
  - apply total_bind; [apply Hbody | intros _; apply IH].
Qed.

(** [if (b) m] *)
Lemma total_when (b : bool) (m : script St unit) :
  total m -> total (if b then m else ret tt).
Proof. destruct b; [trivial | intros _; apply total_ret]. Qed.

Lemma preserves_when {B} (f : St -> B) (b : bool) (m : script St unit) :
  preserves f m -> preserves f (if b then m else ret tt).
Proof. destruct b; [trivial | intros _; apply preserves_ret]. Qed.

Lemma total_unit (m : script St unit) s : total m -> outcome m s = Normal tt.
Proof. intros Hm. destruct (Hm s) as [[] ->]. reflexivity. Qed.

End Frames.

(* ================================================================== *)
(** * The scene *)
(* ================================================================== *)

Section SceneFacts.
Import JS Telemetry PVVisualization.

(** ** What each method leaves alone *)

Lemma updatePanelOrientation_preserves {B} (f : scene -> B) tilt azimuth :
  (forall v s, f (with_panel_rotation v s) = f s) ->
  preserves f (updatePanelOrientation tilt azimuth).
Proof. intros Hf s. apply Hf. Qed.

Lemma updateSunPosition_preserves {B} (f : scene -> B) Math elevation azimuth :
  (forall u v s, f (with_sun u v s) = f s) ->
  preserves f (updateSunPosition Math elevation azimuth).
Proof. intros Hf s. apply Hf. Qed.

Lemma colourSensor_preserves {B} (f : scene -> B) reading i :
  (forall g s, f (with_materials g s) = f s) ->
  preserves f (colourSensor reading i).
Proof.
  intros Hf. unfold colourSensor. apply preserves_bind; [apply preserves_gets|].
  intros [sensor|]; [apply preserves_modify, Hf | apply preserves_throw].
Qed.

Lemma updateSensorReadings_preserves {B} (f : scene -> B) readings :
  (forall g s, f (with_materials g s) = f s) ->
  preserves f (updateSensorReadings readings).
Proof.
  intros Hf. apply preserves_forEach. intros a i. now apply colourSensor_preserves.
Qed.

Lemma updateCloud_preserves {B} (f : scene -> B) cloudData cloud i :
  (forall g s, f (with_materials g s) = f s) ->
  (forall g s, f (with_clouds g s) = f s) ->
  preserves f (updateCloud cloudData cloud i).
Proof.
  intros Hm Hc. unfold updateCloud.
  apply preserves_bind; [apply preserves_modify, Hc|]. intros _.
  destruct cloudData as [entries|]; [|apply preserves_ret].
  destruct (entries !! i); [|apply preserves_ret].
  apply preserves_modify. intros s.
  match goal with |- f (match ?o with _ => _ end) = _ => destruct o end;
    [apply Hm | reflexivity].
Qed.

Lemma updateClouds_preserves {B} (f : scene -> B) cloudData :
  (forall g s, f (with_materials g s) = f s) ->
  (forall g s, f (with_clouds g s) = f s) ->
  preserves f (updateClouds cloudData).
Proof.
  intros Hm Hc. unfold updateClouds. apply preserves_bind; [apply preserves_gets|].
  intros all. apply preserves_forEach. intros a i. now apply updateCloud_preserves.
Qed.

Lemma updateCloud_total cloudData cloud i : total (updateCloud cloudData cloud i).
Proof.
  unfold updateCloud. apply total_bind; [apply total_modify|]. intros _.
  destruct cloudData as [entries|]; [|apply total_ret].
  destruct (entries !! i); [apply total_modify | apply total_ret].
Qed.

Lemma updateClouds_total cloudData : total (updateClouds cloudData).
Proof.
  unfold updateClouds. apply total_bind; [apply total_gets|].
  intros all. apply total_forEach. intros a i. apply updateCloud_total.
Qed.

(** ** Clouds *)

Lemma updateCloud_clouds cloudData cloud i s :
  clouds (exec (updateCloud cloudData cloud i) s) = alter drift i (clouds s).
Proof.
  unfold updateCloud. rewrite exec_bind. simpl.
  destruct cloudData as [entries|]; [|reflexivity].
  destruct (entries !! i); [|reflexivity].
  unfold exec, modify; simpl.
  match goal with |- clouds (match ?o with _ => _ end) = _ => destruct o end; reflexivity.
Qed.

Lemma forEach_updateCloud cloudData (all : list THREE.Group) :
  forall (moved rest : list THREE.Group) s,
    length all = length rest ->
    clouds s = moved ++ rest ->
    clouds (exec (forEach (updateCloud cloudData) all (length moved)) s)
    = moved ++ map drift rest.
Proof.
  induction all as [|a all IH]; intros moved rest s Hlen Hs.
  - destruct rest; [|discriminate]. change (clouds s = moved ++ []). exact Hs.
  - destruct rest as [|c rest]; [discriminate|]. simpl.
    rewrite exec_bind, (total_unit _ _ (updateCloud_total cloudData a (length moved))).
    replace (S (length moved)) with (length (moved ++ [drift c]))
      by (rewrite length_app; simpl; lia).
    rewrite (IH (moved ++ [drift c]) rest).
    + rewrite <- app_assoc. reflexivity.
    + simpl in Hlen. lia.
    + rewrite updateCloud_clouds, Hs.
      replace (length moved) with (length moved + 0)%nat by lia.
      rewrite alter_app_r. simpl. rewrite <- app_assoc. reflexivity.
Qed.

(** Every call of [updateClouds] moves every cloud one step. *)
Lemma updateClouds_clouds cloudData s :
  clouds (exec (updateClouds cloudData) s) = map drift (clouds s).
Proof.
  unfold updateClouds. rewrite exec_bind. simpl.
  apply (forEach_updateCloud cloudData (clouds s) [] (clouds s) s); reflexivity.
Qed.

End SceneFacts.

(** Discharges [preserves f m] for a fragment built from the methods of the
    scene, when [f] is a field none of them writes. *)
Ltac frame :=
  repeat first
    [ apply preserves_ret | apply preserves_throw | apply preserves_gets
    | apply preserves_when
    | apply updatePanelOrientation_preserves; reflexivity
    | apply updateSunPosition_preserves; reflexivity
    | apply updateSensorReadings_preserves; reflexivity
    | apply updateClouds_preserves; reflexivity
    | apply preserves_bind; [|intros ?]
    | match goal with
      | |- JS.preserves _ (match ?o with Some _ => _ | None => _ end) => destruct o
      end ].

(** Two doubles with different bits are different numbers. *)
Lemma float_neq (a b : float) : Prim2SF a <> Prim2SF b -> a <> b.
Proof. congruence. Qed.

Section SceneClaims.
Import JS Telemetry PVVisualization.
#[local] Open Scope float_scope.

Lemma drift_withinBound cloud : withinBound cloud = true -> withinBound (drift cloud) = true.
Proof.
  unfold withinBound, drift. simpl. intros Hx.
  destruct (5 <? THREE.x (THREE.group_position cloud) + 0.01) eqn:E; [reflexivity|].
  apply not_above_is_below; [| discriminate | exact E].
  rewrite FloatAxioms.add_spec.
  change (Prim2SF 0.01) with (S754_finite false 5764607523034235 (-59)).
  apply SFadd_finite_not_nan. now apply leb_not_nan in Hx.
Qed.

(** C10.  Every call of [updateClouds] completes and moves every cloud one
    step: it adds 0.01 to x and puts an x that exceeds 5 back to -5.  After
    the call the x-coordinate of every cloud is at most 5, provided it was
    at most 5 before. *)
Theorem updateClouds_x_at_most_5 (cloudData : option (list CloudDatum)) (s : scene) :
  Forall (fun cloud => withinBound cloud = true) (clouds s) ->
  outcome (updateClouds cloudData) s = Normal tt /\
  clouds (exec (updateClouds cloudData) s) = map drift (clouds s) /\
  Forall (fun cloud => withinBound cloud = true) (clouds (exec (updateClouds cloudData) s)).
Proof.
  intros Hs. split; [apply total_unit, updateClouds_total|].
  split; [apply updateClouds_clouds|].
  rewrite updateClouds_clouds. apply List.Forall_map.
  eapply Forall_impl; [exact Hs|]. intros cloud. apply drift_withinBound.
Qed.

Lemma updateClouds_x_at_most_5_witness :
  Forall (fun cloud => withinBound cloud = true) (clouds Sample.scene) /\
  Forall (fun cloud => withinBound cloud = true)
         (clouds (exec (updateClouds None) Sample.scene)).
Proof.
  assert (H : Forall (fun cloud => withinBound cloud = true) (clouds Sample.scene))
    by (vm_compute; repeat constructor).
  split; [exact H | exact (proj2 (proj2 (updateClouds_x_at_most_5 None Sample.scene H)))].
Defined.

(** ** Frames and Snapshots *)

Lemma run_frames_clouds Math n : forall s,
  clouds (run Math (repeat Frame n) s) = clouds s.
Proof.
  induction n as [|n IH]; intros s; [reflexivity|].
  change (clouds (run Math (repeat Frame n) (exec animate s)) = clouds s).
  rewrite IH. reflexivity.
Qed.

(** The steps of [updateFromData] before [updateClouds]. *)
Lemma updateFromData_clouds Math data s :
  clouds (exec (updateFromData Math data) s)
  = if completed (outcome (updateFromData Math data) s)
    then map drift (clouds s) else clouds s.
Proof.
  unfold updateFromData.
  set (panel := if defined (panel_tilt data) && defined (panel_azimuth data)
                then updatePanelOrientation (panel_tilt data) (panel_azimuth data)
                else ret tt).
  set (sun := if defined (sun_elevation data) && defined (sun_azimuth data)
              then updateSunPosition Math (sun_elevation data) (sun_azimuth data)
              else ret tt).
  set (colours := match sensor_readings data with
                  | Some readings => updateSensorReadings readings
                  | None => ret tt
                  end).
  assert (Hp : total panel /\ preserves clouds panel).
  { split; [apply total_when, total_modify | apply preserves_when].
    now apply updatePanelOrientation_preserves. }
  assert (Hs : total sun /\ preserves clouds sun).
  { split; [apply total_when, total_modify | apply preserves_when].
    now apply updateSunPosition_preserves. }
  assert (Hc : preserves clouds colours).
  { subst colours. destruct (sensor_readings data);
      [now apply updateSensorReadings_preserves | apply preserves_ret]. }
  destruct Hp as [Hp1 Hp2], Hs as [Hs1 Hs2].
  rewrite !exec_bind, !outcome_bind.
  rewrite (total_unit panel s Hp1), (total_unit sun _ Hs1).
  destruct (outcome colours (exec sun (exec panel s))) as [[]|e]; simpl.
  - rewrite (total_unit _ _ (updateClouds_total None)). simpl.
    rewrite updateClouds_clouds, Hc, Hs2, Hp2. reflexivity.
  - rewrite Hc, Hs2, Hp2. reflexivity.
Qed.

(** C7, as the code has it.  Cloud positions do not advance on animation
    frames: [animate] renders and leaves every cloud where it is, for one
    frame and for any number of them.  They advance when a Snapshot is
    applied: [updateFromData] moves every cloud one step when it completes,
    and leaves the clouds in place when it throws on the way. *)
Theorem clouds_advance_with_snapshots (Math : MathObject) :
  (forall s, clouds (exec animate s) = clouds s) /\
  (forall n s, clouds (run Math (repeat Frame n) s) = clouds s) /\
  (forall data s,
      clouds (exec (updateFromData Math data) s)
      = if completed (outcome (updateFromData Math data) s)
        then map drift (clouds s) else clouds s).
Proof.
  split; [reflexivity|]. split; [apply run_frames_clouds|apply updateFromData_clouds].
Qed.

(** C7, as stated, fails on the scene of [Sample]: an animation frame
    leaves the three clouds where they are, at x = -2.5, 0 and 4.995; they
    are not where a step of the drift would have put them. *)
Lemma animate_does_not_move_clouds :
  clouds (exec animate Sample.scene) = clouds Sample.scene /\
  clouds (exec animate Sample.scene) <> map drift (clouds Sample.scene).
Proof.
  split; [reflexivity|]. intros H.
  apply (f_equal (map (fun c => Prim2SF (THREE.x (THREE.group_position c))))) in H.
  vm_compute in H. discriminate H.
Qed.

(** ** Absent fields *)

Lemma updateFromData_panel Math data (s : scene) :
  panel_rotation (exec (updateFromData Math data) s)
  = if defined (panel_tilt data) && defined (panel_azimuth data)
    then THREE.vec3 (THREE.degToRad (ToNumber (panel_tilt data)))
                    (THREE.degToRad (ToNumber (panel_azimuth data) - 180))
                    (THREE.z (panel_rotation s))
    else panel_rotation s.
Proof.
  unfold updateFromData. rewrite exec_bind, total_unit by apply total_when, total_modify.
  match goal with |- panel_rotation (exec ?k ?s1) = _ =>
    assert (Hk : preserves panel_rotation k) by frame; rewrite Hk end.
  destruct (defined (panel_tilt data) && defined (panel_azimuth data)); reflexivity.
Qed.

Lemma updateFromData_sun Math data (s : scene) :
  let position := @sunCoordinates float _ (engine_trig Math)
                    (ToNumber (sun_elevation data)) (ToNumber (sun_azimuth data)) in
  sun_position (exec (updateFromData Math data) s)
  = (if defined (sun_elevation data) && defined (sun_azimuth data)
     then position else sun_position s) /\
  sunLight_position (exec (updateFromData Math data) s)
  = (if defined (sun_elevation data) && defined (sun_azimuth data)
     then position else sunLight_position s).
Proof.
  intros position. unfold updateFromData.
  rewrite exec_bind, total_unit by apply total_when, total_modify.
  rewrite exec_bind, total_unit by apply total_when, total_modify.
  match goal with |- sun_position (exec ?k ?s2) = _ /\ _ =>
    assert (Hk1 : preserves sun_position k) by frame;
    assert (Hk2 : preserves sunLight_position k) by frame;
    rewrite Hk1, Hk2 end.
  destruct (defined (sun_elevation data) && defined (sun_azimuth data)).
  - split; reflexivity.
  - split.
    + change (sun_position (exec (ret tt) ?s1)) with (sun_position s1).
      now apply preserves_when, updatePanelOrientation_preserves.
    + change (sunLight_position (exec (ret tt) ?s1)) with (sunLight_position s1).
      now apply preserves_when, updatePanelOrientation_preserves.
Qed.

(** C4, as the code has it.  A Snapshot without [panel_tilt] leaves the
    panel's rotation as it was, tilt and azimuth alike, and so does one
    without [panel_azimuth]: the panel is turned only when both angles are
    present, and then to (tilt, azimuth - 180) in radians.  In the same way
    the sun and the light stay when one of the sun's angles is absent, and
    the materials, and with them the sensor colours, stay when
    [sensor_readings] is absent. *)
Theorem updateFromData_absent_fields (Math : MathObject) (data : Snapshot) (s : scene) :
  let s' := exec (updateFromData Math data) s in
  (panel_tilt data = VUndefined \/ panel_azimuth data = VUndefined ->
     panel_rotation s' = panel_rotation s) /\
  (panel_tilt data <> VUndefined -> panel_azimuth data <> VUndefined ->
     panel_rotation s'
     = THREE.vec3 (THREE.degToRad (ToNumber (panel_tilt data)))
                  (THREE.degToRad (ToNumber (panel_azimuth data) - 180))
                  (THREE.z (panel_rotation s))) /\
  (sun_elevation data = VUndefined \/ sun_azimuth data = VUndefined ->
     sun_position s' = sun_position s /\ sunLight_position s' = sunLight_position s) /\
  (sensor_readings data = None ->
     materials s' = materials s /\ sensorColours s' = sensorColours s).
Proof.
  intros s'. subst s'.
  assert (Hoff : forall u v : value,
             u = VUndefined \/ v = VUndefined -> defined u && defined v = false)
    by (intros u v [-> | ->]; [reflexivity | apply andb_false_r]).
  assert (Hon : forall u v : value,
             u <> VUndefined -> v <> VUndefined -> defined u && defined v = true)
    by (intros [] [] Hu Hv; try reflexivity; congruence).
  split; [|split; [|split]].
  - intros Hpanel. rewrite updateFromData_panel, Hoff by exact Hpanel. reflexivity.
  - intros Htilt Hazimuth. rewrite updateFromData_panel, Hon by assumption. reflexivity.
  - intros Hsun. destruct (updateFromData_sun Math data s) as [-> ->].
    rewrite Hoff by exact Hsun. split; reflexivity.
  - intros Hnone.
    assert (Hmaterials : materials (exec (updateFromData Math data) s) = materials s).
    { unfold updateFromData. rewrite Hnone. frame.
      unfold updateClouds. frame. apply preserves_forEach. intros cloud i.
      unfold updateCloud. frame. now apply preserves_modify. }
    assert (Hsensors : sensors (exec (updateFromData Math data) s) = sensors s).
    { unfold updateFromData. rewrite Hnone. frame. }
    split; [exact Hmaterials|]. unfold sensorColours. now rewrite Hmaterials, Hsensors.
Qed.

Lemma updateFromData_absent_fields_witness :
  whatever_the_engine (fun Math =>
    panel_tilt Sample.untilted = VUndefined /\
    panel_azimuth Sample.untilted <> VUndefined /\
    panel_rotation (exec (updateFromData Math Sample.untilted) Sample.scene)
    = panel_rotation Sample.scene).
Proof.
  intros Math. split; [reflexivity|]. split; [discriminate|].
  exact (proj1 (updateFromData_absent_fields Math Sample.untilted Sample.scene)
               (or_introl eq_refl)).
Defined.

(** C4, as stated, fails on [Sample.untilted], which has [panel_azimuth]
    90 and no [panel_tilt]: the azimuth rotation stays 0 instead of
    becoming [degToRad (90 - 180)]. *)
Lemma updateFromData_ignores_lone_azimuth :
  whatever_the_engine (fun Math =>
    panel_tilt Sample.untilted = VUndefined /\
    panel_azimuth Sample.untilted = VNumber 90 /\
    THREE.y (panel_rotation (exec (updateFromData Math Sample.untilted) Sample.scene)) = 0 /\
    THREE.y (panel_rotation (exec (updateFromData Math Sample.untilted) Sample.scene))
    <> THREE.degToRad (90 - 180)).
Proof.
  intros Math. repeat split. apply float_neq. vm_compute. discriminate.
Qed.

(** ** Sensors *)

Lemma colourSensor_recolours reading i a (s : scene) sensor :
  sensors s !! i = Some sensor -> THREE.material sensor = a ->
  (a < length (materials s))%nat ->
  THREE.color <$> materials (exec (colourSensor reading i) s) !! a
  = Some (gradient reading).
Proof.
  intros Hi Ha Hlen. unfold colourSensor, exec, bind, gets. simpl. rewrite Hi. simpl.
  rewrite Ha, list_lookup_alter, decide_True by reflexivity.
  destruct (lookup_lt_is_Some_2 _ _ Hlen) as [m ->]. reflexivity.
Qed.

Lemma colourSensor_materials_length reading i (s : scene) :
  length (materials (exec (colourSensor reading i) s)) = length (materials s).
Proof.
  unfold colourSensor, exec, bind, gets. simpl.
  destruct (sensors s !! i); simpl; [apply length_alter | reflexivity].
Qed.

(** When every sensor refers to the material at one address, a run of
    [setRGB] leaves that material with the colour of the last reading. *)
Lemma forEach_colourSensor_last readings a : forall i (s : scene),
  Forall (fun sensor => THREE.material sensor = a) (sensors s) ->
  (a < length (materials s))%nat ->
  (i + length readings <= length (sensors s))%nat ->
  THREE.color <$> materials (exec (forEach colourSensor readings i) s) !! a
  = match last readings with
    | Some reading => Some (gradient reading)
    | None => THREE.color <$> materials s !! a
    end.
Proof.
  induction readings as [|reading readings IH]; intros i s Hall Ha Hlen; [reflexivity|].
  simpl in Hlen.
  destruct (lookup_lt_is_Some_2 (sensors s) i ltac:(lia)) as [sensor Hi].
  assert (Hm : THREE.material sensor = a)
    by (rewrite Forall_lookup in Hall; exact (Hall i sensor Hi)).
  change (forEach colourSensor (reading :: readings) i)
    with (bind (colourSensor reading i) (fun _ => forEach colourSensor readings (S i))).
  rewrite exec_bind.
  assert (Hok : outcome (colourSensor reading i) s = Normal tt).
  { unfold colourSensor, outcome, bind, gets. simpl. rewrite Hi. reflexivity. }
  rewrite Hok.
  assert (Hs : sensors (exec (colourSensor reading i) s) = sensors s)
    by now apply colourSensor_preserves.
  rewrite IH; rewrite ?Hs, ?colourSensor_materials_length; try assumption; try lia.
  rewrite (colourSensor_recolours reading i a s sensor Hi Hm Ha).
  destruct readings as [|r readings]; [reflexivity|].
  simpl. destruct (last (r :: readings)) eqn:E; [reflexivity|].
  apply last_None in E. discriminate E.
Qed.

(** X2.  On the scene the constructor builds, whatever [Math.random]
    returned, up to four readings leave all four sensors with one colour,
    that of the gradient at the last reading: the sensors share one
    material object. *)
Lemma updateSensorReadings_last_reading_wins random (readings : list value) reading :
  last readings = Some reading ->
  (length readings <= 4)%nat ->
  sensorColours (exec (updateSensorReadings readings) (constructor random))
  = replicate 4 (Some (gradient reading)).
Proof.
  intros Hlast Hlen.
  set (s := constructor random).
  assert (Hsensors : sensors s
            = map (fun pos => {| THREE.position := pos; THREE.material := 0 |})
                  sensorPositions) by reflexivity.
  assert (Hcolour : THREE.color
            <$> materials (exec (updateSensorReadings readings) s) !! 0%nat
            = Some (gradient reading)).
  { unfold updateSensorReadings.
    rewrite (forEach_colourSensor_last readings 0 0 s), Hlast; try reflexivity.
    - rewrite Hsensors. repeat constructor.
    - vm_compute. lia.
    - rewrite Hsensors. simpl. lia. }
  unfold sensorColours.
  rewrite (updateSensorReadings_preserves sensors readings) by reflexivity.
  rewrite Hsensors. simpl. rewrite Hcolour. reflexivity.
Qed.

(** C9, on the code: the readings [0, 500, 1000, 1500] leave all four
    sensors green.  [createPanel] builds the four meshes from one material
    object, so every [setRGB] recolours all of them and the last reading
    wins; the gradient itself gives red, olive, green, green. *)
Theorem updateSensorReadings_shared_material :
  map gradient Sample.readings
  = [THREE.rgb 1 0 0; THREE.rgb 0.5 0.5 0; THREE.rgb 0 1 0; THREE.rgb 0 1 0] /\
  sensorColours (exec (updateSensorReadings Sample.readings) Sample.scene)
  = [Some (THREE.rgb 0 1 0); Some (THREE.rgb 0 1 0);
     Some (THREE.rgb 0 1 0); Some (THREE.rgb 0 1 0)].
Proof. split; vm_compute; reflexivity. Qed.

End SceneClaims.

Section SunGeometry.
Import JS PVVisualization.
#[local] Open Scope float_scope.

(** The coordinates of the sun, operation by operation: every operator is
    that of doubles, [Math.PI / 180] is the constant of three.js. *)
Lemma sunCoordinates_doubles Math (e a : float) :
  @sunCoordinates float _ (engine_trig Math) e a
  = let phi := (90 - e) * (3.141592653589793 / 180) in
    let theta := a * (3.141592653589793 / 180) in
    THREE.vec3 (10 * Math_sin Math phi * Math_cos Math theta)
               (10 * Math_cos Math phi)
               (10 * Math_sin Math phi * Math_sin Math theta).
Proof. reflexivity. Qed.

(** C6, as the code has it.  [updateSunPosition] places the sun at
    (R sin phi cos theta, R cos phi, R sin phi sin theta) with R = 10,
    phi = (90 - e) (Math.PI / 180) and theta = a (Math.PI / 180), where
    every operation is that of doubles and the sine and the cosine are the
    engine's; the light's position equals the sun's after the update.  With
    [Math.sin(0)] = 0 and [Math.cos(0)] = 1, which every engine has,
    e = 90 and a = 0 give (0, R, 0) exactly.  For e = 0 and a = 0 the polar
    angle is the double 1.5707963267948966, which is not pi / 2, and the sun
    is placed at (R sin phi 1, R cos phi, R sin phi 0) for that double: its
    height is R times the cosine the engine has there. *)
Theorem updateSunPosition_spherical
    (Math : MathObject) (elevation azimuth : value) (s : scene) :
  let phi := (90 - ToNumber elevation) * (3.141592653589793 / 180) in
  let theta := ToNumber azimuth * (3.141592653589793 / 180) in
  let s' := exec (updateSunPosition Math elevation azimuth) s in
  sun_position s'
  = THREE.vec3 (10 * Math_sin Math phi * Math_cos Math theta)
               (10 * Math_cos Math phi)
               (10 * Math_sin Math phi * Math_sin Math theta) /\
  sunLight_position s' = sun_position s' /\
  (Math_sin Math 0 = 0 -> Math_cos Math 0 = 1 ->
   elevation = VNumber 90 -> azimuth = VNumber 0 ->
   sun_position s' = THREE.vec3 0 10 0) /\
  (Math_sin Math 0 = 0 -> Math_cos Math 0 = 1 ->
   elevation = VNumber 0 -> azimuth = VNumber 0 ->
   sun_position s'
   = THREE.vec3 (10 * Math_sin Math 1.5707963267948966 * 1)
                (10 * Math_cos Math 1.5707963267948966)
                (10 * Math_sin Math 1.5707963267948966 * 0)).
Proof.
  intros phi theta s'. subst s'.
  assert (Hsun : sun_position (exec (updateSunPosition Math elevation azimuth) s)
                 = THREE.vec3 (10 * Math_sin Math phi * Math_cos Math theta)
                              (10 * Math_cos Math phi)
                              (10 * Math_sin Math phi * Math_sin Math theta))
    by (subst phi theta; apply sunCoordinates_doubles).
  split; [exact Hsun|]. split; [reflexivity|]. rewrite Hsun. subst phi theta. split.
  - intros Hsin Hcos -> ->. simpl ToNumber.
    change ((90 - 90) * (3.141592653589793 / 180)) with 0.
    change (0 * (3.141592653589793 / 180)) with 0.
    rewrite Hsin, Hcos. reflexivity.
  - intros Hsin Hcos -> ->. simpl ToNumber.
    change ((90 - 0) * (3.141592653589793 / 180)) with 1.5707963267948966.
    change (0 * (3.141592653589793 / 180)) with 0.
    rewrite Hsin, Hcos. reflexivity.
Qed.

Lemma updateSunPosition_spherical_witness :
  Math_sin Sample.engine 0 = 0 /\ Math_cos Sample.engine 0 = 1 /\
  sun_position (exec (updateSunPosition Sample.engine (VNumber 90) (VNumber 0))
                     Sample.scene)
  = THREE.vec3 0 10 0.
Proof.
  split; [reflexivity|]. split; [reflexivity|].
  exact (proj1 (proj2 (proj2 (updateSunPosition_spherical Sample.engine
                                (VNumber 90) (VNumber 0) Sample.scene)))
               eq_refl eq_refl eq_refl eq_refl).
Defined.

(** C6, as stated, fails for e = 0 and a = 0 on [Sample.engine], whose
    sine and cosine are correctly rounded: the sun is placed at
    (10, 6.123233995736766e-16, 0), above the ground, not at (R, 0, 0). *)
Lemma updateSunPosition_horizon_inexact :
  sun_position (exec (updateSunPosition Sample.engine (VNumber 0) (VNumber 0))
                     Sample.scene)
  = THREE.vec3 10 6.123233995736766e-16 0 /\
  sun_position (exec (updateSunPosition Sample.engine (VNumber 0) (VNumber 0))
                     Sample.scene)
  <> THREE.vec3 10 0 0.
Proof.
  split; [vm_compute; reflexivity|]. intros H.
  apply (f_equal (fun v => Prim2SF (THREE.y v))) in H. vm_compute in H. discriminate H.
Qed.

End SunGeometry.

(* ================================================================== *)
(** * The charts *)
(* ================================================================== *)

Section ChartFacts.
Import JS Telemetry Dashboard.
#[local] Open Scope float_scope.

Lemma extendTraces_run gd xs ys indices (p : Plotly.page) plot :
  p !! gd = Some plot ->
  Plotly.validIndices (length (Plotly.data plot)) indices
    && (length xs =? length indices)%nat && (length ys =? length indices)%nat = true ->
  Plotly.extendTraces gd xs ys indices p
  = (Normal tt,
     <[gd := {| Plotly.data := Plotly.extendAll indices xs ys (Plotly.data plot);
                Plotly.layout := Plotly.layout plot |}]> p).
Proof. intros Hp Hok. unfold Plotly.extendTraces. rewrite Hp, Hok. reflexivity. Qed.

Lemma traces_Some (p : Plotly.page) gd n :
  traces p gd = Some n ->
  exists plot, p !! gd = Some plot /\ length (Plotly.data plot) = n.
Proof.
  unfold traces. destruct (p !! gd) as [plot|]; simpl; [|discriminate].
  intros [= <-]. eauto.
Qed.

(** A Snapshot with its readings is charted to the end, and every trace
    gains one point, at x = time / 60. *)
Lemma updateCharts_appends (data : Snapshot) (readings : list value) (p : Plotly.page) :
  sensor_readings data = Some readings ->
  drawn p ->
  outcome (updateCharts data) p = Normal tt /\
  Forall (gained p (exec (updateCharts data) p) (VNumber (ToNumber (time data) / 60)))
         (plotted data).
Proof.
  intros Hr (H1 & H2 & H3 & H4).
  apply traces_Some in H1 as (p1 & Hp1 & L1), H2 as (p2 & Hp2 & L2),
    H3 as (p3 & Hp3 & L3), H4 as (p4 & Hp4 & L4).
  destruct p1 as [[|a0 [|a1 [|? ?]]] l1]; try discriminate L1.
  destruct p2 as [[|b0 [|b1 [|b2 [|? ?]]]] l2]; try discriminate L2.
  destruct p3 as [[|c0 [|c1 [|c2 [|c3 [|? ?]]]]] l3]; try discriminate L3.
  destruct p4 as [[|d0 [|? ?]] l4]; try discriminate L4.
  unfold updateCharts, exec, outcome, bind, index. rewrite Hr.
  erewrite extendTraces_run; [| exact Hp1 | reflexivity]. lazy beta iota.
  erewrite extendTraces_run; [| rewrite lookup_insert_ne by done; exact Hp2 | reflexivity].
  unfold ret. lazy beta iota.
  erewrite extendTraces_run;
    [| rewrite !lookup_insert_ne by done; exact Hp3 | reflexivity]. lazy beta iota.
  erewrite extendTraces_run;
    [| rewrite !lookup_insert_ne by done; exact Hp4 | reflexivity]. lazy beta iota.
  split; [reflexivity|].
  unfold plotted, gained, Plotly.series. rewrite Hr. simpl.
  repeat (apply Forall_cons; split); try apply Forall_nil;
    simpl; rewrite ?Hp1, ?Hp2, ?Hp3, ?Hp4; simpl;
    do 2 eexists; (split; [reflexivity|]);
    repeat (rewrite lookup_insert_ne by done); rewrite lookup_insert_eq; reflexivity.
Qed.

(** A Snapshot without readings is charted until the readings are read:
    the series of the first two charts gain their point, then the call
    throws. *)
Lemma updateCharts_stops (data : Snapshot) (p : Plotly.page) :
  sensor_readings data = None ->
  drawn p ->
  completed (outcome (updateCharts data) p) = false /\
  Forall (gained p (exec (updateCharts data) p) (VNumber (ToNumber (time data) / 60)))
         (take 5 (plotted data)) /\
  Forall (untouched p (exec (updateCharts data) p)) (drop 5 (plotted data)).
Proof.
  intros Hr (H1 & H2 & H3 & H4).
  apply traces_Some in H1 as (p1 & Hp1 & L1), H2 as (p2 & Hp2 & L2).
  destruct p1 as [[|a0 [|a1 [|? ?]]] l1]; try discriminate L1.
  destruct p2 as [[|b0 [|b1 [|b2 [|? ?]]]] l2]; try discriminate L2.
  unfold updateCharts, exec, outcome, bind, index. rewrite Hr.
  erewrite extendTraces_run; [| exact Hp1 | reflexivity]. lazy beta iota.
  erewrite extendTraces_run; [| rewrite lookup_insert_ne by done; exact Hp2 | reflexivity].
  unfold throw. lazy beta iota.
  split; [reflexivity|].
  unfold plotted, gained, untouched, Plotly.series. rewrite Hr. simpl. split.
  - repeat (apply Forall_cons; split); try apply Forall_nil;
      simpl; rewrite ?Hp1, ?Hp2; simpl;
      do 2 eexists; (split; [reflexivity|]);
      repeat (rewrite lookup_insert_ne by done); rewrite lookup_insert_eq; reflexivity.
  - repeat (apply Forall_cons; split); try apply Forall_nil;
      simpl; repeat (rewrite lookup_insert_ne by done); reflexivity.
Qed.

Lemma drawn_loaded random : drawn (plots (loaded random)).
Proof. repeat split. Qed.

Lemma zeroOrAbsent_spec (v : value) :
  zeroOrAbsent v = true ->
  match Prim2SF (ToNumber v) with S754_zero _ | S754_nan => True | _ => False end.
Proof.
  destruct v as [| | b | n | s n]; simpl; try discriminate; try exact (fun _ => I).
  intros Hz. apply is_zero_spec in Hz as [s ->]. exact I.
Qed.

(** C1, as the code has it.  A Snapshot whose [poa_glb] is zero or absent
    still gains the Efficiency series one point, at x = time / 60; its value
    is 100 * total_irradiance / poa_glb computed without a guard, which is
    then [NaN] or an infinity. *)
Theorem updateCharts_efficiency_unguarded
    (data : Snapshot) (readings : list value) (p : Plotly.page) :
  sensor_readings data = Some readings ->
  drawn p ->
  zeroOrAbsent (poa_glb data) = true ->
  let efficiency := 100 * ToNumber (total_irradiance data) / ToNumber (poa_glb data) in
  gained p (exec (updateCharts data) p) (VNumber (ToNumber (time data) / 60))
         ("efficiency-chart", 0%nat, VNumber efficiency) /\
  isFinite efficiency = false.
Proof.
  intros Hr Hp Hz efficiency. split.
  - destruct (updateCharts_appends data readings p Hr Hp) as [_ Hall].
    exact (Forall_lookup_1 _ _ 9%nat _ Hall eq_refl).
  - apply div_by_zero_not_finite, zeroOrAbsent_spec, Hz.
Qed.

Lemma updateCharts_efficiency_unguarded_witness :
  zeroOrAbsent (poa_glb Sample.night) = true /\
  isFinite (100 * ToNumber (total_irradiance Sample.night)
            / ToNumber (poa_glb Sample.night)) = false.
Proof.
  split; [reflexivity|].
  exact (proj2 (updateCharts_efficiency_unguarded Sample.night Sample.readings
                  (plots Sample.world) eq_refl (drawn_loaded Sample.random) eq_refl)).
Defined.

(** C1, as stated, fails on [Sample.night], whose [poa_glb] is 0: charted
    on the freshly drawn page, it gives the Efficiency series, empty until
    then, the point (1, Infinity). *)
Lemma updateCharts_appends_infinity :
  zeroOrAbsent (poa_glb Sample.night) = true /\
  Plotly.series (plots Sample.world) "efficiency-chart" 0 = Some ([], []) /\
  Plotly.series (exec (updateCharts Sample.night) (plots Sample.world))
                "efficiency-chart" 0
  = Some ([VNumber 1], [VNumber infinity]).
Proof. repeat split; vm_compute; reflexivity. Qed.

(** C3, as the code has it.  On the drawn charts, [updateCharts] appends
    the point (time / 60, value) to a series whether or not the field is
    present: for every Snapshot that has its [sensor_readings] the call
    completes and every series of every chart gains exactly one point, the
    value of an absent field being [undefined].  For a Snapshot without
    [sensor_readings] the call throws when it reads them: the series of the
    irradiance and angles charts have gained their point by then, the
    sensor and efficiency series gain none. *)
Theorem updateCharts_appends_to_every_series (data : Snapshot) (p : Plotly.page) :
  drawn p ->
  let p' := exec (updateCharts data) p in
  let x := VNumber (ToNumber (time data) / 60) in
  match sensor_readings data with
  | Some _ =>
      outcome (updateCharts data) p = Normal tt /\
      Forall (gained p p' x) (plotted data)
  | None =>
      completed (outcome (updateCharts data) p) = false /\
      Forall (gained p p' x) (take 5 (plotted data)) /\
      Forall (untouched p p') (drop 5 (plotted data))
  end.
Proof.
  intros Hp p' x. subst p' x.
  destruct (sensor_readings data) as [readings|] eqn:Hr.
  - now apply updateCharts_appends with readings.
  - now apply updateCharts_stops.
Qed.

Lemma updateCharts_appends_to_every_series_witness :
  drawn (plots Sample.world) /\
  outcome (updateCharts Sample.untilted) (plots Sample.world) = Normal tt.
Proof.
  split; [apply drawn_loaded|].
  exact (proj1 (updateCharts_appends_to_every_series Sample.untilted
                  (plots Sample.world) (drawn_loaded Sample.random))).
Defined.

(** C3, as stated, fails on [Sample.untilted], which has no [panel_tilt]:
    the Panel Tilt series, empty until then, gains the point
    (1, undefined). *)
Lemma updateCharts_appends_absent_field :
  panel_tilt Sample.untilted = VUndefined /\
  Plotly.series (plots Sample.world) "angles-chart" 0 = Some ([], []) /\
  Plotly.series (exec (updateCharts Sample.untilted) (plots Sample.world))
                "angles-chart" 0
  = Some ([VNumber 1], [VUndefined]).
Proof. repeat split; vm_compute; reflexivity. Qed.

End ChartFacts.

(* ================================================================== *)
(** * The handler and the controls *)
(* ================================================================== *)

Section DashboardFacts.
Import JS Telemetry Dashboard.
#[local] Open Scope float_scope.

(** ** What the parts of the script leave alone *)

Lemma plotly_preserves {A B} (f : World -> B) (m : script Plotly.page A) :
  (forall p w, f (with_plots p w) = f w) -> preserves f (plotly m).
Proof.
  intros Hf w. unfold plotly, zoom, exec. destruct (m (plots w)) as [c p]. apply Hf.
Qed.

Lemma ifVisualization_preserves {B} (f : World -> B) m :
  (forall v w, f (with_pvVisualization v w) = f w) -> preserves f (ifVisualization m).
Proof.
  intros Hf w. unfold ifVisualization, exec.
  destruct (pvVisualization w) as [scene|]; [|reflexivity].
  destruct (m scene) as [c scene']. apply Hf.
Qed.

Lemma renderStats_exec {St} stats (s : St) : exec (renderStats stats) s = s.
Proof.
  induction stats as [|[key v] stats IH]; [reflexivity|].
  destruct v; try reflexivity. simpl. rewrite exec_bind.
  destruct (outcome (renderStats stats) s); exact IH.
Qed.

Lemma renderStats_completed {St} stats (s : St) :
  completed (outcome (renderStats stats) s)
  = forallb (fun entry => isNumber (snd entry)) stats.
Proof.
  induction stats as [|[key v] stats IH]; [reflexivity|].
  destruct v; try reflexivity. simpl. rewrite outcome_bind. rewrite <- IH.
  destruct (outcome (renderStats stats) s); reflexivity.
Qed.

Lemma updateSummaryStats_preserves {B} (f : World -> B) stats :
  (forall l w, f (with_summary l w) = f w) -> preserves f (updateSummaryStats stats).
Proof.
  intros Hf w. unfold updateSummaryStats. rewrite exec_bind, renderStats_exec.
  destruct (outcome (renderStats stats) w); [apply Hf | reflexivity].
Qed.

Lemma updateProgress_preserves {B} (f : World -> B) percent :
  (forall t w, f (with_progress_text t w) = f w) ->
  preserves f (updateProgress percent).
Proof.
  intros Ht. unfold updateProgress.
  destruct percent; try apply preserves_throw. now apply preserves_modify.
Qed.

Lemma resetCharts_preserves {B} (f : World -> B) :
  (forall p w, f (with_plots p w) = f w) -> preserves f resetCharts.
Proof.
  intros Hf. unfold resetCharts. apply preserves_bind; [apply preserves_gets|].
  intros registry. apply preserves_forEach. intros entry i. unfold resetChart.
  apply preserves_bind; [apply preserves_throw | intros n].
  now apply plotly_preserves.
Qed.

Lemma deleteTraces_layouts gd indices (p : Plotly.page) :
  layouts (exec (Plotly.deleteTraces gd indices) p) = layouts p.
Proof.
  unfold Plotly.deleteTraces, exec, layouts.
  destruct (p !! gd) as [plot|] eqn:Hp; [|reflexivity].
  destruct (Plotly.validIndices _ _); [|reflexivity]. simpl.
  rewrite fmap_insert. apply insert_id. rewrite lookup_fmap, Hp. reflexivity.
Qed.

Lemma resetCharts_layouts : preserves (fun w => layouts (plots w)) resetCharts.
Proof.
  unfold resetCharts. apply preserves_bind; [apply preserves_gets|].
  intros registry. apply preserves_forEach. intros entry i. unfold resetChart.
  apply preserves_bind; [apply preserves_throw | intros n].
  intros w. unfold plotly, zoom, exec.
  pose proof (deleteTraces_layouts (fst entry) (seq 0 n) (plots w)) as Hl.
  unfold exec in Hl.
  destruct (Plotly.deleteTraces (fst entry) (seq 0 n) (plots w)) as [c p']. exact Hl.
Qed.

(** ** The history of Snapshots *)

Lemma handleSimulationData_history Math (data : Message) (w : World) :
  simulationData (exec (handleSimulationData Math data) w)
  = simulationData w ++ stored data.
Proof.
  unfold handleSimulationData, stored, displayable.
  rewrite exec_bind.
  assert (Hprogress : simulationData (exec (updateProgress (progress data)) w)
                      = simulationData w)
    by now apply updateProgress_preserves.
  destruct (progress data) as [| | b | n | t n];
    try (simpl; rewrite app_nil_r; exact Hprogress).
  change (outcome (updateProgress (VNumber n)) w) with (@Normal unit tt).
  cbv beta iota. rewrite exec_bind.
  set (w1 := exec (updateProgress (VNumber n)) w) in *.
  assert (Hstats : forall stats,
             simulationData (exec (updateSummaryStats stats) w1) = simulationData w)
    by (intros stats; rewrite <- Hprogress; now apply updateSummaryStats_preserves).
  simpl isNumber. cbv beta iota. rewrite andb_true_l.
  destruct (summary_stats data) as [stats|].
  - unfold updateSummaryStats at 1. rewrite outcome_bind.
    rewrite <- renderStats_completed with (s := w1).
    destruct (outcome (renderStats stats) w1) as [html|e] eqn:Hrender; simpl.
    + set (w2 := exec (updateSummaryStats stats) w1).
      assert (H2 : simulationData w2 = simulationData w) by apply Hstats.
      clearbody w2. destruct (current_data data) as [current|]; simpl.
      * rewrite exec_bind. simpl.
        assert (Hrest : preserves simulationData
                          (bind (ifVisualization (PVVisualization.updateFromData Math current))
                                (fun _ => plotly (updateCharts current)))).
        { apply preserves_bind; [now apply ifVisualization_preserves | intros _].
          now apply plotly_preserves. }
        rewrite Hrest. simpl. rewrite H2. reflexivity.
      * rewrite app_nil_r. exact H2.
    + rewrite app_nil_r. apply Hstats.
  - simpl. change (exec (ret tt) w1) with w1.
    destruct (current_data data) as [current|]; simpl.
    + rewrite exec_bind. simpl.
      assert (Hrest : preserves simulationData
                        (bind (ifVisualization (PVVisualization.updateFromData Math current))
                              (fun _ => plotly (updateCharts current)))).
      { apply preserves_bind; [now apply ifVisualization_preserves | intros _].
        now apply plotly_preserves. }
      rewrite Hrest. simpl. reflexivity.
    + rewrite app_nil_r. exact Hprogress.
Qed.

Lemma receive_history Math (messages : list Message) : forall w,
  simulationData (receive Math messages w)
  = simulationData w ++ flat_map stored messages.
Proof.
  induction messages as [|data messages IH]; intros w.
  - symmetry. apply app_nil_r.
  - change (receive Math (data :: messages) w)
      with (receive Math messages (exec (handleSimulationData Math data) w)).
    rewrite IH, handleSimulationData_history. simpl.
    rewrite <- app_assoc. reflexivity.
Qed.

(** C8, as the code has it.  Every message that gets past the progress
    bar and the statistics has its Snapshot appended to [simulationData],
    where it stays: over a run of messages the history is the list of all
    their Snapshots, in order of arrival, and it is as long as the run. *)
Theorem handleSimulationData_keeps_every_snapshot (Math : MathObject) :
  (forall data w,
      simulationData (exec (handleSimulationData Math data) w)
      = simulationData w ++ stored data) /\
  (forall messages w,
      simulationData (receive Math messages w)
      = simulationData w ++ flat_map stored messages) /\
  (forall n w,
      length (simulationData
                (receive Math (repeat (Sample.message Sample.complete) n) w))
      = (length (simulationData w) + n)%nat).
Proof.
  split; [apply handleSimulationData_history|].
  split; [apply receive_history|].
  intros n w. rewrite receive_history, length_app. f_equal.
  induction n as [|n IH]; [reflexivity|]. simpl. now rewrite IH.
Qed.

(** C8, as stated, fails on the loaded page of [Sample]: after two
    messages both Snapshots are in [simulationData]. *)
Lemma simulationData_accumulates :
  whatever_the_engine (fun Math =>
    simulationData Sample.world = [] /\
    simulationData
      (receive Math [Sample.message Sample.complete; Sample.message Sample.night]
               Sample.world)
    = [Sample.complete; Sample.night]).
Proof. intros Math. split; [reflexivity|]. rewrite receive_history. reflexivity. Qed.

(** ** A Snapshot that is handled to the end *)

Lemma colourSensor_completes reading i (s : PVVisualization.scene) :
  (i < length (PVVisualization.sensors s))%nat ->
  outcome (PVVisualization.colourSensor reading i) s = Normal tt.
Proof.
  intros Hi. unfold PVVisualization.colourSensor. rewrite outcome_bind. simpl.
  destruct (lookup_lt_is_Some_2 _ _ Hi) as [sensor Hs].
  unfold gets, exec. simpl. rewrite Hs. reflexivity.
Qed.

Lemma updateSensorReadings_completes readings : forall i (s : PVVisualization.scene),
  (i + length readings <= length (PVVisualization.sensors s))%nat ->
  outcome (forEach PVVisualization.colourSensor readings i) s = Normal tt.
Proof.
  induction readings as [|reading readings IH]; intros i s Hlen; [reflexivity|].
  simpl in *. rewrite outcome_bind, colourSensor_completes by lia.
  apply IH. rewrite colourSensor_preserves by reflexivity. lia.
Qed.

Lemma updateFromData_completes Math data readings (s : PVVisualization.scene) :
  sensor_readings data = Some readings ->
  (length readings <= length (PVVisualization.sensors s))%nat ->
  outcome (PVVisualization.updateFromData Math data) s = Normal tt.
Proof.
  intros Hr Hlen. unfold PVVisualization.updateFromData. rewrite Hr.
  rewrite outcome_bind, total_unit by apply total_when, total_modify.
  rewrite outcome_bind, total_unit by apply total_when, total_modify.
  rewrite outcome_bind.
  unfold PVVisualization.updateSensorReadings.
  rewrite updateSensorReadings_completes.
  - apply total_unit, updateClouds_total.
  - rewrite (preserves_when PVVisualization.sensors); [|now apply updateSunPosition_preserves].
    rewrite (preserves_when PVVisualization.sensors);
      [|now apply updatePanelOrientation_preserves].
    exact Hlen.
Qed.

(** C2, as the code has it.  The handler does not validate [time]: a
    message whose [time] is not a finite number at least 0 is handled like
    any other.  When its progress is a number, it has no statistics, its
    Snapshot has readings (no more than the scene has sensors) and the
    charts are drawn, the handler completes; the Snapshot is stored, the
    scene is updated from it, and every series gains a point at
    x = ToNumber(time) / 60. *)
Theorem handleSimulationData_does_not_validate
    (Math : MathObject) (msg : Message) (data : Snapshot) (readings : list value)
    (n : float) (w : World) :
  progress msg = VNumber n ->
  summary_stats msg = None ->
  current_data msg = Some data ->
  validTime (time data) = false ->
  sensor_readings data = Some readings ->
  (forall scene, pvVisualization w = Some scene ->
                 (length readings <= length (PVVisualization.sensors scene))%nat) ->
  drawn (plots w) ->
  let w' := exec (handleSimulationData Math msg) w in
  outcome (handleSimulationData Math msg) w = Normal tt /\
  simulationData w' = simulationData w ++ [data] /\
  pvVisualization w'
  = exec (PVVisualization.updateFromData Math data) <$> pvVisualization w /\
  Forall (gained (plots w) (plots w') (VNumber (ToNumber (time data) / 60)))
         (plotted data).
Proof.
  intros Hprogress Hstats Hcurrent _ Hr Hscene Hdrawn w'.
  destruct (updateCharts_appends data readings (plots w) Hr Hdrawn) as [Hout Hall].
  subst w'. unfold handleSimulationData, exec, outcome, bind in *.
  rewrite Hprogress, Hstats, Hcurrent. simpl.
  unfold ifVisualization, plotly, zoom. simpl.
  destruct (pvVisualization w) as [scene|] eqn:Hv; simpl.
  - pose proof (updateFromData_completes Math data readings scene Hr (Hscene scene eq_refl))
      as Hupdate.
    unfold outcome in Hupdate.
    destruct (PVVisualization.updateFromData Math data scene) as [c scene'].
    simpl in Hupdate. subst c. simpl.
    destruct (updateCharts data (plots w)) as [c p']. simpl in *. subst c.
    repeat split; assumption.
  - destruct (updateCharts data (plots w)) as [c p']. simpl in *. subst c.
    rewrite Hv. repeat split; assumption.
Qed.

Lemma handleSimulationData_does_not_validate_witness :
  whatever_the_engine (fun Math =>
    validTime (time Sample.malformed) = false /\
    outcome (handleSimulationData Math (Sample.message Sample.malformed)) Sample.world
    = Normal tt).
Proof.
  intros Math. split; [reflexivity|].
  refine (proj1 (handleSimulationData_does_not_validate Math
                   (Sample.message Sample.malformed) Sample.malformed Sample.readings
                   50 Sample.world eq_refl eq_refl eq_refl eq_refl eq_refl _
                   (drawn_loaded Sample.random))).
  intros scene [= <-]. vm_compute. lia.
Defined.

(** C2, as stated, fails on [Sample.malformed], whose [time] is the
    string abc: the message is not rejected.  On the loaded page its
    Snapshot is stored, the Total Irradiance series gains the point
    (NaN, 500), and the clouds of the scene move. *)
Lemma handleSimulationData_applies_malformed :
  whatever_the_engine (fun Math =>
    let w' := exec (handleSimulationData Math (Sample.message Sample.malformed))
                   Sample.world in
    validTime (time Sample.malformed) = false /\
    simulationData w' = [Sample.malformed] /\
    Plotly.series (plots Sample.world) "irradiance-chart" 0 = Some ([], []) /\
    Plotly.series (plots w') "irradiance-chart" 0 = Some ([VNumber nan], [VNumber 500]) /\
    (map (fun cloud => THREE.x (THREE.group_position cloud))
       <$> (PVVisualization.clouds <$> pvVisualization Sample.world))
    = Some [-2.5; 0; 4.995000000000001] /\
    (map (fun cloud => THREE.x (THREE.group_position cloud))
       <$> (PVVisualization.clouds <$> pvVisualization w'))
    = Some [-2.4900000000000002; 0.01; -5]).
Proof. intros Math. repeat split; vm_compute; reflexivity. Qed.

(** ** Reset *)

Lemma resetCharts_run (w : World) :
  resetCharts w
  = match charts w with
    | [] => (Normal tt, w)
    | _ :: _ =>
        (Throw (TypeError "Cannot read properties of undefined (reading length)"), w)
    end.
Proof. unfold resetCharts, bind, gets. destruct (charts w); reflexivity. Qed.




End DashboardFacts.

(* ================================================================== *)
(** * More about the scene *)
(* ================================================================== *)

Section SceneMore.
Import JS Telemetry PVVisualization SceneShape.
#[local] Open Scope float_scope.

(** ** Readings and sensors *)

Lemma forEach_colourSensor_completed readings : forall i (s : scene),
  (i <= length (sensors s))%nat ->
  completed (outcome (forEach colourSensor readings i) s)
  = (i + length readings <=? length (sensors s))%nat.
Proof.
  induction readings as [|reading readings IH]; intros i s Hi.
  - simpl. symmetry. apply Nat.leb_le. lia.
  - change (forEach colourSensor (reading :: readings) i)
      with (bind (colourSensor reading i) (fun _ => forEach colourSensor readings (S i))).
    rewrite outcome_bind. simpl length.
    destruct (decide (i < length (sensors s))%nat) as [Hlt|Hge].
    + destruct (lookup_lt_is_Some_2 _ _ Hlt) as [sensor Hs].
      assert (Hok : outcome (colourSensor reading i) s = Normal tt).
      { unfold colourSensor, outcome, bind, gets. simpl. rewrite Hs. reflexivity. }
      rewrite Hok, IH; rewrite (colourSensor_preserves sensors) by reflexivity; [|lia].
      f_equal. lia.
    + assert (Hnone : sensors s !! i = None) by (apply lookup_ge_None; lia).
      unfold colourSensor, outcome, bind, gets. simpl. rewrite Hnone. simpl.
      symmetry. apply Nat.leb_gt. lia.
Qed.

(** X1.  [updateSensorReadings] completes exactly when there are no more
    readings than sensors: a reading past the last sensor makes it throw.
    Either way it leaves the sensors, the panel, the sun, the light and the
    clouds as they were. *)
Theorem updateSensorReadings_completes_iff (readings : list value) (s : scene) :
  completed (outcome (updateSensorReadings readings) s)
  = (length readings <=? length (sensors s))%nat /\
  sensors (exec (updateSensorReadings readings) s) = sensors s /\
  panel_rotation (exec (updateSensorReadings readings) s) = panel_rotation s /\
  sun_position (exec (updateSensorReadings readings) s) = sun_position s /\
  sunLight_position (exec (updateSensorReadings readings) s) = sunLight_position s /\
  clouds (exec (updateSensorReadings readings) s) = clouds s.
Proof.
  split; [apply (forEach_colourSensor_completed readings 0 s); lia|].
  repeat split; now apply updateSensorReadings_preserves.
Qed.

Lemma updateSensorReadings_last_reading_wins_witness :
  last Sample.readings = Some (VNumber 1500) /\
  sensorColours (exec (updateSensorReadings Sample.readings) Sample.scene)
  = replicate 4 (Some (gradient (VNumber 1500))).
Proof.
  split; [reflexivity|].
  apply (updateSensorReadings_last_reading_wins Sample.random Sample.readings (VNumber 1500));
    [reflexivity | vm_compute; lia].
Defined.

(** ** What a Snapshot does to panel, sun and light *)

(** X3.  What [updateFromData] leaves of a Snapshot in panel, sun and
    light, also when it throws further on.  The panel is turned, to
    (tilt, azimuth - 180) in radians, exactly when both panel angles are
    present; the sun is placed, and the light with it, exactly when both of
    the sun's angles are present.  Present means other than [undefined]: a
    [null] counts, and is read as 0. *)
Theorem updateFromData_applies_present_angles
    (Math : MathObject) (data : Snapshot) (s : scene) :
  let s' := exec (updateFromData Math data) s in
  let position := @sunCoordinates float _ (engine_trig Math)
                    (ToNumber (sun_elevation data)) (ToNumber (sun_azimuth data)) in
  panel_rotation s'
  = (if defined (panel_tilt data) && defined (panel_azimuth data)
     then THREE.vec3 (THREE.degToRad (ToNumber (panel_tilt data)))
                     (THREE.degToRad (ToNumber (panel_azimuth data) - 180))
                     (THREE.z (panel_rotation s))
     else panel_rotation s) /\
  sun_position s'
  = (if defined (sun_elevation data) && defined (sun_azimuth data)
     then position else sun_position s) /\
  sunLight_position s'
  = (if defined (sun_elevation data) && defined (sun_azimuth data)
     then position else sunLight_position s).
Proof.
  intros s' position. split; [apply updateFromData_panel | apply updateFromData_sun].
Qed.

(** ** The light and the sun *)

Lemma step_keeps_light_on_sun Math t (s : scene) :
  sunLight_position s = sun_position s ->
  sunLight_position (exec (step Math t) s) = sun_position (exec (step Math t) s).
Proof.
  intros Heq. destruct t as [|data]; [exact Heq|]. simpl.
  destruct (updateFromData_sun Math data s) as [-> ->].
  destruct (_ && _); [reflexivity | exact Heq].
Qed.

Lemma run_keeps_light_on_sun Math ticks : forall s : scene,
  sunLight_position s = sun_position s ->
  sunLight_position (run Math ticks s) = sun_position (run Math ticks s).
Proof.
  induction ticks as [|t ticks IH]; intros s Heq; [exact Heq|].
  change (run Math (t :: ticks) s) with (run Math ticks (exec (step Math t) s)).
  apply IH, step_keeps_light_on_sun, Heq.
Qed.

(** X4.  Once a Snapshot with both of the sun's angles has been applied,
    the light is at the sun's position, and it stays there over every
    further animation frame and Snapshot, whether or not these complete. *)
Theorem light_stays_on_sun
    (Math : MathObject) (data : Snapshot) (ticks : list tick) (s : scene) :
  defined (sun_elevation data) && defined (sun_azimuth data) = true ->
  sunLight_position (run Math (Data data :: ticks) s)
  = sun_position (run Math (Data data :: ticks) s).
Proof.
  intros Hsun.
  change (run Math (Data data :: ticks) s)
    with (run Math ticks (exec (updateFromData Math data) s)).
  apply run_keeps_light_on_sun.
  destruct (updateFromData_sun Math data s) as [-> ->]. rewrite Hsun. reflexivity.
Qed.

Lemma light_stays_on_sun_witness :
  whatever_the_engine (fun Math =>
    defined (sun_elevation Sample.complete) && defined (sun_azimuth Sample.complete) = true /\
    sunLight_position (run Math [Data Sample.complete; Frame; Data Sample.untilted] Sample.scene)
    = sun_position (run Math [Data Sample.complete; Frame; Data Sample.untilted] Sample.scene)).
Proof.
  intros Math. split; [reflexivity|].
  exact (light_stays_on_sun Math Sample.complete [Frame; Data Sample.untilted]
           Sample.scene eq_refl).
Defined.

(** ** The build of the scene *)

Lemma map_alter_same {A B} (f : A -> B) (g : A -> A) i (l : list A) :
  (forall a, f (g a) = f a) -> map f (alter g i l) = map f l.
Proof.
  intros Hg. revert i. induction l as [|a l IH]; intros [|i]; simpl; try reflexivity.
  - now rewrite Hg.
  - f_equal. apply IH.
Qed.

Lemma fade_length opacity parts : forall store,
  length (fade opacity parts store) = length store.
Proof.
  unfold fade. induction parts as [|part parts IH]; intros store; [reflexivity|].
  simpl. rewrite IH. apply length_alter.
Qed.

Lemma colourSensor_structure reading i : preserves structure (colourSensor reading i).
Proof.
  intros s. unfold colourSensor, exec, bind, gets, structure. simpl.
  destruct (sensors s !! i); simpl; [rewrite length_alter|]; reflexivity.
Qed.

Lemma updateCloud_structure cloudData cloud i :
  preserves structure (updateCloud cloudData cloud i).
Proof.
  assert (Hdrift : forall s, structure (with_clouds (alter drift i) s) = structure s).
  { intros s. unfold structure. simpl. f_equal. now apply map_alter_same. }
  unfold updateCloud. apply preserves_bind; [now apply preserves_modify|]. intros _.
  destruct cloudData as [entries|]; [|apply preserves_ret].
  destruct (entries !! i); [|apply preserves_ret].
  apply preserves_modify. intros s.
  match goal with |- structure (match ?o with _ => _ end) = _ => destruct o end;
    [|reflexivity].
  unfold structure. simpl. now rewrite fade_length.
Qed.

Lemma updateFromData_structure Math data : preserves structure (updateFromData Math data).
Proof.
  unfold updateFromData.
  apply preserves_bind;
    [now apply preserves_when, updatePanelOrientation_preserves | intros _].
  apply preserves_bind;
    [now apply preserves_when, updateSunPosition_preserves | intros _].
  apply preserves_bind.
  - destruct (sensor_readings data); [|apply preserves_ret].
    apply preserves_forEach. intros reading i. apply colourSensor_structure.
  - intros _. unfold updateClouds. apply preserves_bind; [apply preserves_gets|].
    intros all. apply preserves_forEach. intros cloud i. apply updateCloud_structure.
Qed.

(** X5.  No animation frame and no Snapshot changes the build of the
    scene, whether the update completes or throws: the number of material
    objects, the sensors (their places and the material each refers to) and,
    for every cloud, its height, its depth and its parts stay as they are
    over any run.  A cloud moves along x only. *)
Theorem run_keeps_structure (Math : MathObject) (ticks : list tick) (s : scene) :
  structure (run Math ticks s) = structure s.
Proof.
  revert s. induction ticks as [|t ticks IH]; intros s; [reflexivity|].
  change (run Math (t :: ticks) s) with (run Math ticks (exec (step Math t) s)).
  rewrite IH. destruct t as [|data]; [reflexivity | apply updateFromData_structure].
Qed.

(** X6.  Whatever [Math.random] returns, the constructor builds sixteen
    material objects: the four sensors all refer to the first, and each of
    the five parts of each of the three clouds refers to one of its own.
    Every address a mesh holds is that of a material of the scene. *)
Theorem constructor_layout (random : nat -> float) :
  length (materials (constructor random)) = 16%nat /\
  addresses (constructor random)
  = ([0; 0; 0; 0], [[1; 2; 3; 4; 5]; [6; 7; 8; 9; 10]; [11; 12; 13; 14; 15]])%nat /\
  map THREE.position (sensors (constructor random)) = sensorPositions /\
  Forall (fun m => m = {| THREE.color := THREE.rgb 1 1 1; THREE.opacity := 0.7 |})
         (drop 1 (materials (constructor random))) /\
  materials (constructor random) !! 0%nat
  = Some {| THREE.color := THREE.rgb 1 0 0; THREE.opacity := 1 |}.
Proof.
  repeat split. vm_compute. repeat constructor.
Qed.

(** ** The opacity of the clouds *)

(** X7.  On the scene the constructor builds, [updateClouds] with a
    [cloudData] array gives the five parts of every cloud that has an entry
    the opacity 0.3 + 0.7 * entry.opacity, leaves the parts of the other
    clouds at the 0.7 they were created with and the sensors' material at
    1, and changes no colour.  Entries past the third cloud are ignored. *)
Theorem updateClouds_sets_opacity (random : nat -> float) (cloudData : list CloudDatum) :
  let s' := exec (updateClouds (Some cloudData)) (constructor random) in
  map THREE.opacity (materials s')
  = 1 :: replicate 5 (coverage cloudData 0)
      ++ replicate 5 (coverage cloudData 1) ++ replicate 5 (coverage cloudData 2) /\
  map THREE.color (materials s') = map THREE.color (materials (constructor random)).
Proof.
  destruct cloudData as [|e0 [|e1 [|e2 rest]]]; split; reflexivity.
Qed.

(** ** The gradient of the sensors *)

Lemma SFcompare_refl (a : spec_float) : a <> S754_nan -> SFcompare a a = Some Eq.
Proof.
  destruct a as [s|s| |s m e]; simpl; intros Ha; try congruence.
  - destruct s; reflexivity.
  - rewrite Z.compare_refl, Pos.compare_cont_refl. destruct s; reflexivity.
Qed.

Lemma is_nan_spec (q : float) :
  is_nan q = match Prim2SF q with S754_nan => true | _ => false end.
Proof.
  unfold is_nan. rewrite FloatAxioms.eqb_spec. unfold SFeqb.
  destruct (Prim2SF q) eqn:E; try reflexivity;
    rewrite SFcompare_refl by discriminate; reflexivity.
Qed.


(** X8.  The colour of a reading, in closed form, with q = reading / 1000:
    below 1 it is (1 - q, q, 0), from 1 on it is pure green (0, 1, 0), and
    for a reading that is no number it is (NaN, NaN, 0).  The intensity is
    clamped at 1 only: a negative reading gives a green below 0 and a red
    above 1. *)
Theorem gradient_closed_form (reading : value) :
  let q := ToNumber reading / 1000 in
  gradient reading
  = if q <? 1 then THREE.rgb (1 - q) q 0
    else if 1 <=? q then THREE.rgb 0 1 0
    else THREE.rgb nan nan 0.
Proof.
  intros q. unfold gradient, Math_min. fold q. clearbody q.
  rewrite (is_nan_spec q), (is_nan_spec 1).
  unfold is_zero. rewrite FloatAxioms.eqb_spec, !FloatAxioms.ltb_spec, FloatAxioms.leb_spec.
  change (Prim2SF 1) with (S754_finite false 4503599627370496 (-52)).
  change (Prim2SF zero) with (S754_zero false).
  unfold SFltb, SFleb, SFeqb.
  rewrite (SFcompare_antisym (Prim2SF q) (S754_finite false 4503599627370496 (-52))).
  destruct (Prim2SF q) as [s|s| |s m e] eqn:E.
  - destruct s; reflexivity.
  - destruct s; reflexivity.
  - reflexivity.
  - destruct (SFcompare (S754_finite s m e) (S754_finite false 4503599627370496 (-52)))
      as [[]|] eqn:C.
    + destruct s; reflexivity.
    + reflexivity.
    + reflexivity.
    + unfold SFcompare in C. discriminate C.
Qed.

End SceneMore.

(* ================================================================== *)
(** * More about the dashboard *)
(* ================================================================== *)

Section DashboardMore.
Import JS Telemetry Dashboard History.
#[local] Open Scope float_scope.

(** ** The display of a message *)

Lemma renderStats_numbers {St} stats (s : St) :
  forallb (fun entry => isNumber (snd entry)) stats = true ->
  renderStats stats s = (Normal (numbers stats), s).
Proof.
  induction stats as [|[key v] stats IH]; [reflexivity|].
  destruct v; try discriminate. simpl. intros H.
  unfold bind. rewrite IH by exact H. reflexivity.
Qed.

Lemma renderStats_throws {St} stats (s : St) :
  forallb (fun entry => isNumber (snd entry)) stats = false ->
  exists e, renderStats stats s = (Throw e, s).
Proof.
  induction stats as [|[key v] stats IH]; [discriminate|].
  destruct v; simpl; intros H; try (eexists; reflexivity).
  destruct (IH H) as [e He]. exists e. unfold bind. rewrite He. reflexivity.
Qed.

(** A displayable message gets past the display, which leaves the page as
    [shown] has it. *)
Lemma handleSimulationData_run Math (msg : Message) (w : World) :
  displayable msg = true ->
  handleSimulationData Math msg w
  = match current_data msg with
    | Some current => consume Math current (shown msg w)
    | None => (Normal tt, shown msg w)
    end.
Proof.
  unfold displayable. intros H. apply andb_true_iff in H as [Hp Hs].
  unfold handleSimulationData, shown, updateProgress, updateSummaryStats.
  destruct (progress msg) as [| | | n |]; try discriminate Hp.
  destruct (summary_stats msg) as [stats|].
  - unfold bind at 1. unfold bind at 1. unfold modify at 1. unfold modify at 1.
    unfold bind at 1. unfold bind at 1. rewrite renderStats_numbers by exact Hs.
    destruct (current_data msg); reflexivity.
  - destruct (current_data msg); reflexivity.
Qed.

(** A message that is not displayable stops the handler in the display. *)
Lemma handleSimulationData_stops Math (msg : Message) (w : World) :
  displayable msg = false ->
  exists e,
    handleSimulationData Math msg w
    = (Throw e,
       match progress msg with
       | VNumber n => with_progress_text (Some n) w
       | _ => w
       end).
Proof.
  unfold displayable, handleSimulationData, updateProgress. intros H.
  destruct (progress msg) as [| | b | n | t n]; try (eexists; reflexivity).
  simpl in H. destruct (summary_stats msg) as [stats|]; [|discriminate].
  destruct (renderStats_throws stats (with_progress_text (Some n) w) H) as [e He].
  exists e. unfold updateSummaryStats, bind, modify. rewrite He. reflexivity.
Qed.

(** X9.  A message whose progress is no number, or that has a statistic
    that is no number, makes the handler throw in the display.  The text of
    the progress bar shows the progress when that is a number; the status
    line, the summary panel, the registry, the history, the scene and the
    plots are as they were, and so is the text of the bar when the progress
    is no number.  The Snapshot of such a message is neither stored, nor
    shown in the scene, nor charted. *)
Theorem handleSimulationData_stops_at_display
    (Math : MathObject) (msg : Message) (w : World) :
  displayable msg = false ->
  completed (outcome (handleSimulationData Math msg) w) = false /\
  exec (handleSimulationData Math msg) w
  = match progress msg with
    | VNumber n => with_progress_text (Some n) w
    | _ => w
    end.
Proof.
  intros H. destruct (handleSimulationData_stops Math msg w H) as [e He].
  unfold outcome, exec. rewrite He. split; reflexivity.
Qed.

Lemma handleSimulationData_stops_at_display_witness :
  whatever_the_engine (fun Math =>
    let msg := {| progress := VString "50" 50; summary_stats := None;
                  current_data := Some Sample.complete |} in
    displayable msg = false /\
    exec (handleSimulationData Math msg) Sample.world = Sample.world).
Proof.
  intros Math msg. split; [reflexivity|].
  exact (proj2 (handleSimulationData_stops_at_display Math msg Sample.world eq_refl)).
Defined.

Lemma consume_preserves {B} Math current (f : World -> B) :
  (forall d w, f (with_simulationData d w) = f w) ->
  (forall v w, f (with_pvVisualization v w) = f w) ->
  (forall p w, f (with_plots p w) = f w) ->
  preserves f (consume Math current).
Proof.
  intros H1 H2 H3. unfold consume.
  apply preserves_bind; [apply preserves_modify; intros s; apply H1 | intros _].
  apply preserves_bind; [now apply ifVisualization_preserves | intros _].
  now apply plotly_preserves.
Qed.

(** X10.  A displayable message is displayed whatever becomes of its
    Snapshot further on: the text of the progress bar shows the progress,
    the summary panel lists the statistics of the message, in their order
    (it keeps what it listed when the message has none), and the status
    line and the registry of charts are as before.  Without a Snapshot the
    handler completes and leaves the history, the scene and the plots
    untouched. *)
Theorem handleSimulationData_displays
    (Math : MathObject) (msg : Message) (w : World) :
  displayable msg = true ->
  let w' := exec (handleSimulationData Math msg) w in
  progress_text w' = Some (ToNumber (progress msg)) /\
  summary w' = match summary_stats msg with
               | Some stats => numbers stats
               | None => summary w
               end /\
  status w' = status w /\
  charts w' = charts w /\
  (current_data msg = None ->
     outcome (handleSimulationData Math msg) w = Normal tt /\ feed w' = feed w).
Proof.
  intros H w'. subst w'. unfold exec, outcome.
  rewrite (handleSimulationData_run Math msg w H).
  assert (Hshown : progress_text (shown msg w) = Some (ToNumber (progress msg)) /\
                   summary (shown msg w) = match summary_stats msg with
                                           | Some stats => numbers stats
                                           | None => summary w
                                           end /\
                   status (shown msg w) = status w /\
                   charts (shown msg w) = charts w /\
                   feed (shown msg w) = feed w).
  { unfold shown. destruct (summary_stats msg); repeat split. }
  destruct Hshown as (S2 & S3 & S4 & S5 & S6).
  destruct (current_data msg) as [current|].
  - change (snd (consume Math current (shown msg w)))
      with (exec (consume Math current) (shown msg w)).
    rewrite !consume_preserves by reflexivity.
    repeat split; try assumption; discriminate.
  - simpl. repeat split; assumption.
Qed.

Lemma handleSimulationData_displays_witness :
  whatever_the_engine (fun Math =>
    let msg := {| progress := VNumber 50;
                  summary_stats := Some [("energy", VNumber 12); ("gain", VNumber 3)];
                  current_data := Some Sample.complete |} in
    displayable msg = true /\
    summary (exec (handleSimulationData Math msg) Sample.world)
    = [("energy", 12); ("gain", 3)]).
Proof.
  intros Math msg. split; [reflexivity|].
  exact (proj1 (proj2
           (handleSimulationData_displays Math msg Sample.world eq_refl))).
Defined.

(** ** A Snapshot the scene cannot take *)

Lemma updateFromData_completed Math data (s : PVVisualization.scene) :
  completed (outcome (PVVisualization.updateFromData Math data) s)
  = match sensor_readings data with
    | Some readings => (length readings <=? length (PVVisualization.sensors s))%nat
    | None => true
    end.
Proof.
  unfold PVVisualization.updateFromData.
  rewrite outcome_bind, total_unit by apply total_when, total_modify.
  rewrite outcome_bind, total_unit by apply total_when, total_modify.
  rewrite outcome_bind.
  set (s1 := exec (if defined (panel_tilt data) && defined (panel_azimuth data)
                   then _ else _) s).
  set (s2 := exec (if defined (sun_elevation data) && defined (sun_azimuth data)
                   then _ else _) s1).
  assert (Hs2 : PVVisualization.sensors s2 = PVVisualization.sensors s).
  { subst s2 s1.
    rewrite (preserves_when PVVisualization.sensors);
      [|now apply updateSunPosition_preserves].
    now rewrite (preserves_when PVVisualization.sensors);
      [|apply updatePanelOrientation_preserves]. }
  clearbody s2. clear s1.
  destruct (sensor_readings data) as [readings|].
  - unfold PVVisualization.updateSensorReadings.
    pose proof (forEach_colourSensor_completed readings 0 s2 (Nat.le_0_l _)) as Hc.
    simpl in Hc. rewrite Hs2 in Hc. rewrite <- Hc.
    destruct (outcome (forEach PVVisualization.colourSensor readings 0) s2);
      [|reflexivity].
    rewrite total_unit by apply updateClouds_total. reflexivity.
  - change (outcome (ret tt) s2) with (@Normal unit tt). cbv beta iota.
    rewrite total_unit by apply updateClouds_total. reflexivity.
Qed.

Lemma feed_shown (msg : Message) (w : World) : feed (shown msg w) = feed w.
Proof. unfold shown. destruct (summary_stats msg); reflexivity. Qed.

(** X11.  A Snapshot with more readings than the scene has sensors is
    stored, and makes [updateFromData] throw; the handler ends there, and
    the charts are not updated: no series gains a point for this Snapshot,
    although it is in the history. *)
Theorem handleSimulationData_scene_failure_skips_charts
    (Math : MathObject) (msg : Message) (data : Snapshot) (readings : list value)
    (sc : PVVisualization.scene) (w : World) :
  displayable msg = true ->
  current_data msg = Some data ->
  sensor_readings data = Some readings ->
  pvVisualization w = Some sc ->
  (length (PVVisualization.sensors sc) < length readings)%nat ->
  let w' := exec (handleSimulationData Math msg) w in
  completed (outcome (handleSimulationData Math msg) w) = false /\
  simulationData w' = simulationData w ++ [data] /\
  pvVisualization w' = Some (exec (PVVisualization.updateFromData Math data) sc) /\
  plots w' = plots w.
Proof.
  intros H Hc Hr Hv Hlen w'. subst w'. unfold exec, outcome.
  rewrite (handleSimulationData_run Math msg w H), Hc.
  pose proof (feed_shown msg w) as Hf. unfold feed in Hf. injection Hf as F1 F2 F3.
  pose proof (updateFromData_completed Math data sc) as Hcomp. rewrite Hr in Hcomp.
  unfold outcome in Hcomp.
  unfold consume, bind, modify, ifVisualization. simpl. rewrite F2, Hv.
  destruct (PVVisualization.updateFromData Math data sc) as [[[]|e] sc']; simpl in *.
  - symmetry in Hcomp. apply Nat.leb_le in Hcomp. lia.
  - rewrite F1, F3. repeat split.
Qed.

Lemma handleSimulationData_scene_failure_skips_charts_witness :
  whatever_the_engine (fun Math =>
    let data :=
      {| time := VNumber 60; total_irradiance := VNumber 500; poa_glb := VNumber 800;
         panel_tilt := VNumber 30; panel_azimuth := VNumber 180;
         sun_elevation := VNumber 45; sun_azimuth := VNumber 120;
         sensor_readings := Some (Sample.readings ++ [VNumber 700]) |} in
    simulationData (exec (handleSimulationData Math (Sample.message data)) Sample.world)
    = [data] /\
    plots (exec (handleSimulationData Math (Sample.message data)) Sample.world)
    = plots Sample.world).
Proof.
  intros Math data.
  destruct (handleSimulationData_scene_failure_skips_charts Math (Sample.message data)
              data (Sample.readings ++ [VNumber 700]) Sample.scene Sample.world
              eq_refl eq_refl eq_refl eq_refl) as (_ & Hs & _ & Hp).
  - vm_compute. lia.
  - split; [exact Hs | exact Hp].
Defined.

(** ** Reset, once the charts are registered *)

(** X12.  Once [initCharts] has registered a chart, [resetCharts] throws at
    the first of them, where it reads the [data] of what [Plotly.newPlot]
    returned, and [resetSimulation] with it: the history is emptied, and
    that is all.  No trace is deleted and no series loses a point; the
    status line, the progress bar and the summary panel are not reset. *)
Theorem resetSimulation_with_charts (w : World) :
  charts w <> [] ->
  completed (outcome resetCharts w) = false /\
  exec resetCharts w = w /\
  completed (outcome resetSimulation w) = false /\
  exec resetSimulation w = with_simulationData [] w.
Proof.
  intros H. unfold resetSimulation, outcome, exec, bind, modify.
  rewrite !resetCharts_run. simpl.
  destruct (charts w); [contradiction|]. repeat split.
Qed.

Lemma resetSimulation_with_charts_witness :
  charts Sample.used <> [] /\
  exec resetSimulation Sample.used = with_simulationData [] Sample.used.
Proof.
  assert (H : charts Sample.used <> []) by discriminate.
  split; [exact H|].
  exact (proj2 (proj2 (proj2 (resetSimulation_with_charts Sample.used H)))).
Defined.

(** ** The shape of the charts *)

Lemma invariant_bind {St A B} (I : St -> Prop) (m : script St A) (k : A -> script St B) :
  (forall s, I s -> I (exec m s)) ->
  (forall a s, I s -> I (exec (k a) s)) ->
  forall s, I s -> I (exec (bind m k) s).
Proof.
  intros Hm Hk s Hs. rewrite exec_bind.
  destruct (outcome m s); [apply Hk|]; apply Hm, Hs.
Qed.

Lemma extendAll_length indices : forall xs ys ts,
  length (Plotly.extendAll indices xs ys ts) = length ts.
Proof.
  induction indices as [|i indices IH]; intros [|x xs] [|y ys] ts; try reflexivity.
  simpl. rewrite IH. apply length_alter.
Qed.

Lemma extendTraces_traces gd xs ys indices gd' :
  preserves (fun p => traces p gd') (Plotly.extendTraces gd xs ys indices).
Proof.
  intros p. unfold Plotly.extendTraces, exec.
  destruct (p !! gd) as [plot|] eqn:Hp; [|reflexivity].
  destruct (_ && _); [|reflexivity]. simpl. unfold traces.
  destruct (decide (gd' = gd)) as [->|Hne].
  - rewrite lookup_insert_eq, Hp. simpl. now rewrite extendAll_length.
  - now rewrite lookup_insert_ne.
Qed.

Lemma extendAll_seq tm vs : forall pre rest,
  length rest = length vs ->
  Plotly.extendAll (seq (length pre) (length vs))
    (map (fun _ => [tm]) vs) (map (fun v => [v]) vs) (pre ++ rest)
  = pre ++ zip_with (fun t v => Plotly.extend [tm] [v] t) rest vs.
Proof.
  induction vs as [|v vs IH]; intros pre [|t rest] Hlen; try discriminate; [reflexivity|].
  simpl.
  replace (alter (Plotly.extend [tm] [v]) (length pre) (pre ++ t :: rest))
    with ((pre ++ [Plotly.extend [tm] [v] t]) ++ rest).
  - replace (S (length pre)) with (length (pre ++ [Plotly.extend [tm] [v] t]))
      by (rewrite length_app; simpl; lia).
    rewrite IH by (simpl in Hlen; lia). now rewrite <- app_assoc.
  - replace (length pre) with (length pre + 0)%nat by lia.
    rewrite alter_app_r. simpl. now rewrite <- app_assoc.
Qed.

Lemma extendTraces_aligned gd tm vs (p : Plotly.page) :
  aligned p ->
  traces p gd = Some (length vs) ->
  aligned (exec (Plotly.extendTraces gd (map (fun _ => [tm]) vs) (map (fun v => [v]) vs)
                   (seq 0 (length vs))) p).
Proof.
  intros Ha Ht. apply traces_Some in Ht as (plot & Hp & Hlen).
  unfold Plotly.extendTraces, exec. rewrite Hp.
  destruct (_ && _); [|exact Ha]. simpl.
  intros gd' plot' Hl. destruct (decide (gd' = gd)) as [->|Hne].
  - rewrite lookup_insert_eq in Hl. injection Hl as <-. simpl.
    destruct (Ha gd plot Hp) as [xs Hxs]. exists (xs ++ [tm]).
    pose proof (extendAll_seq tm vs [] (Plotly.data plot) Hlen) as E.
    simpl in E. rewrite E. clear E.
    clear Hp Hlen. revert vs. induction Hxs as [|t ts [Hx Hy] _ IH]; intros [|v vs];
      simpl; try (constructor; fail).
    apply Forall_cons; split; [|apply IH].
    simpl. rewrite Hx, !length_app, Hy. split; reflexivity.
  - rewrite lookup_insert_ne in Hl by congruence. exact (Ha gd' plot' Hl).
Qed.

(** The charts are drawn, and their traces aligned. *)
Lemma updateCharts_keeps_shape (data : Snapshot) (p : Plotly.page) :
  drawn p /\ aligned p ->
  drawn (exec (updateCharts data) p) /\ aligned (exec (updateCharts data) p).
Proof.
  assert (Hstep : forall gd tm vs,
             In (gd, length vs) [("irradiance-chart", 2%nat); ("angles-chart", 3%nat);
                                 ("sensors-chart", 4%nat); ("efficiency-chart", 1%nat)] ->
             forall p, drawn p /\ aligned p ->
               let m := Plotly.extendTraces gd (map (fun _ => [tm]) vs)
                          (map (fun v => [v]) vs) (seq 0 (length vs)) in
               drawn (exec m p) /\ aligned (exec m p)).
  { intros gd tm vs Hin q [Hd Ha] m. split.
    - unfold drawn. subst m. rewrite !extendTraces_traces. exact Hd.
    - apply extendTraces_aligned; [exact Ha|].
      destruct Hd as (H1 & H2 & H3 & H4). simpl in Hin.
      destruct Hin as [[= <- <-]|[[= <- <-]|[[= <- <-]|[[= <- <-]|[]]]]]; assumption. }
  assert (Hindex : forall i s, drawn s /\ aligned s ->
             drawn (exec (index (sensor_readings data) i) s)
             /\ aligned (exec (index (sensor_readings data) i) s)).
  { intros i s Hs. unfold index. destruct (sensor_readings data); exact Hs. }
  revert p. unfold updateCharts.
  apply (invariant_bind (fun p => drawn p /\ aligned p)).
  { apply (Hstep "irradiance-chart" _ [total_irradiance data; poa_glb data]).
    simpl. tauto. }
  intros _. apply (invariant_bind (fun p => drawn p /\ aligned p)).
  { apply (Hstep "angles-chart" _ [panel_tilt data; panel_azimuth data; sun_elevation data]).
    simpl. tauto. }
  intros _. apply (invariant_bind (fun p => drawn p /\ aligned p)); [apply Hindex|].
  intros r0. apply (invariant_bind (fun p => drawn p /\ aligned p)); [apply Hindex|].
  intros r1. apply (invariant_bind (fun p => drawn p /\ aligned p)); [apply Hindex|].
  intros r2. apply (invariant_bind (fun p => drawn p /\ aligned p)); [apply Hindex|].
  intros r3. apply (invariant_bind (fun p => drawn p /\ aligned p)).
  { apply (Hstep "sensors-chart" _ [r0; r1; r2; r3]). simpl. tauto. }
  intros _.
  apply (Hstep "efficiency-chart" _
           [VNumber (100 * ToNumber (total_irradiance data) / ToNumber (poa_glb data))]).
  simpl. tauto.
Qed.

Lemma aligned_loaded random : aligned (plots (loaded random)).
Proof.
  intros gd plot Hl. exists [].
  unfold loaded, initCharts, exec, bind, plotly, zoom, Plotly.newPlot, modify, ret,
    register in Hl. simpl in Hl.
  repeat (apply lookup_insert_Some in Hl as [[_ <-]|[_ Hl]];
          [repeat (apply Forall_cons; split; [split; reflexivity|]); constructor|]).
  rewrite lookup_empty in Hl. discriminate Hl.
Qed.

(** What a message does to the plots: nothing, or what [updateCharts] does
    with its Snapshot. *)
Lemma consume_plots Math current (w : World) :
  plots (exec (consume Math current) w) = plots w \/
  plots (exec (consume Math current) w) = exec (updateCharts current) (plots w).
Proof.
  destruct w as [registry history [sc|] line text panel p];
    unfold consume, exec, bind, modify, ifVisualization, plotly, zoom; simpl.
  - destruct (PVVisualization.updateFromData Math current sc) as [[[]|e] sc']; simpl.
    + destruct (updateCharts current p) as [c p']. right. reflexivity.
    + left. reflexivity.
  - destruct (updateCharts current p) as [c p']. right. reflexivity.
Qed.

Lemma handleSimulationData_plots Math (msg : Message) (w : World) :
  plots (exec (handleSimulationData Math msg) w) = plots w \/
  exists current,
    plots (exec (handleSimulationData Math msg) w) = exec (updateCharts current) (plots w).
Proof.
  destruct (displayable msg) eqn:Hd.
  - pose proof (feed_shown msg w) as Hf. unfold feed in Hf. injection Hf as _ _ F3.
    assert (E : exec (handleSimulationData Math msg) w
                = match current_data msg with
                  | Some current => exec (consume Math current) (shown msg w)
                  | None => shown msg w
                  end).
    { unfold exec. rewrite (handleSimulationData_run Math msg w Hd).
      destruct (current_data msg); reflexivity. }
    rewrite E. destruct (current_data msg) as [current|]; [|left; exact F3].
    destruct (consume_plots Math current (shown msg w)) as [H|H];
      rewrite F3 in H; [left | right; exists current]; exact H.
  - destruct (handleSimulationData_stops Math msg w Hd) as [e He].
    left. unfold exec. rewrite He. destruct (progress msg); reflexivity.
Qed.

(** ** The charts and the history *)

Lemma plotted_seriesOf (data : Snapshot) k gd i :
  seriesOf !! k = Some (gd, i) -> plotted data !! k = Some (gd, i, yOf k data).
Proof.
  unfold yOf.
  do 10 (destruct k as [|k]; [intros [= <- <-]; reflexivity|]). discriminate.
Qed.

(** What the page is like while every message is chartable. *)
Lemma handleSimulationData_replays Math (msg : Message) (w : World) :
  chartable msg = true ->
  (drawn (plots w) /\ aligned (plots w)) ->
  (exists sc, pvVisualization w = Some sc /\ length (PVVisualization.sensors sc) = 4%nat) ->
  replays (simulationData w) (plots w) ->
  let w' := exec (handleSimulationData Math msg) w in
  (drawn (plots w') /\ aligned (plots w')) /\
  (exists sc, pvVisualization w' = Some sc /\ length (PVVisualization.sensors sc) = 4%nat) /\
  replays (simulationData w') (plots w').
Proof.
  intros Hc Hshape (sc & Hsc & Hfour) Hreplay w'. unfold chartable in Hc.
  apply andb_true_iff in Hc as [Hd Hc].
  assert (E : w' = match current_data msg with
                   | Some current => exec (consume Math current) (shown msg w)
                   | None => shown msg w
                   end).
  { subst w'. unfold exec. rewrite (handleSimulationData_run Math msg w Hd).
    destruct (current_data msg); reflexivity. }
  clearbody w'. subst w'.
  pose proof (feed_shown msg w) as Hf. unfold feed in Hf. injection Hf as F1 F2 F3.
  rewrite <- F1, <- F3 in Hreplay. rewrite <- F3 in Hshape. rewrite <- F2 in Hsc.
  clear F1 F2 F3. revert Hshape Hsc Hreplay. generalize (shown msg w). clear w.
  intros w Hshape Hsc Hreplay.
  destruct (current_data msg) as [current|]; [|eauto].
  destruct (sensor_readings current) as [readings|] eqn:Hr; [|discriminate Hc].
  apply Nat.leb_le in Hc.
  pose proof (updateFromData_completes Math current readings sc Hr) as Hscene.
  rewrite Hfour in Hscene. specialize (Hscene Hc).
  pose proof (updateFromData_structure Math current sc) as Hstructure.
  destruct (updateCharts_appends current readings (plots w) Hr (proj1 Hshape))
    as [Hout Hall].
  pose proof (updateCharts_keeps_shape current (plots w) Hshape) as Hshape'.
  unfold outcome, exec in Hscene, Hstructure, Hout, Hall, Hshape'.
  destruct w as [registry history scene line text panel p]. simpl in *. subst scene.
  unfold consume, exec, bind, modify, ifVisualization, plotly, zoom. simpl.
  destruct (PVVisualization.updateFromData Math current sc) as [c sc']. simpl in *. subst c.
  destruct (updateCharts current p) as [c p']. simpl in *. subst c. simpl.
  split; [exact Hshape'|]. split.
  - exists sc'. split; [reflexivity|].
    unfold SceneShape.structure in Hstructure. injection Hstructure as _ Hs _.
    now rewrite Hs.
  - intros k gd i Hk.
    pose proof (Forall_lookup_1 _ _ k _ Hall (plotted_seriesOf current k gd i Hk))
      as (xs & ys & Hbefore & Hafter).
    rewrite (Hreplay k gd i Hk) in Hbefore. injection Hbefore as <- <-.
    rewrite Hafter, !map_app. reflexivity.
Qed.

Lemma receive_replays Math (messages : list Message) : forall w : World,
  forallb chartable messages = true ->
  (drawn (plots w) /\ aligned (plots w)) ->
  (exists sc, pvVisualization w = Some sc /\ length (PVVisualization.sensors sc) = 4%nat) ->
  replays (simulationData w) (plots w) ->
  replays (simulationData (receive Math messages w)) (plots (receive Math messages w)).
Proof.
  induction messages as [|msg messages IH]; intros w Hall Hshape Hscene Hreplay;
    [exact Hreplay|].
  simpl in Hall. apply andb_true_iff in Hall as [Hmsg Hall].
  change (receive Math (msg :: messages) w)
    with (receive Math messages (exec (handleSimulationData Math msg) w)).
  destruct (handleSimulationData_replays Math msg w Hmsg Hshape Hscene Hreplay)
    as (H1 & H2 & H3).
  now apply IH.
Qed.

(** X13.  On the loaded page, as long as every message is one the page
    handles to the end (numeric progress and statistics, and a Snapshot, if
    any, that has readings, four at most), the charts are the history: each
    of the ten series holds exactly one point per Snapshot of
    [simulationData], in the order of arrival, at x = time / 60 and with the
    value [updateCharts] takes from that Snapshot. *)
Theorem charts_replay_history
    (Math : MathObject) (random : nat -> float) (messages : list Message) :
  forallb chartable messages = true ->
  let w := receive Math messages (loaded random) in
  forall k gd i, seriesOf !! k = Some (gd, i) ->
    Plotly.series (plots w) gd i
    = Some (map xOf (simulationData w), map (yOf k) (simulationData w)).
Proof.
  intros Hall w. subst w. apply receive_replays.
  - exact Hall.
  - split; [apply drawn_loaded | apply aligned_loaded].
  - exists (PVVisualization.constructor random). split; reflexivity.
  - intros k gd i.
    do 10 (destruct k as [|k]; [intros [= <- <-]; reflexivity|]). discriminate.
Qed.

Lemma charts_replay_history_witness :
  whatever_the_engine (fun Math =>
    let messages := [Sample.message Sample.complete; Sample.message Sample.night] in
    forallb chartable messages = true /\
    Plotly.series (plots (receive Math messages Sample.world)) "efficiency-chart" 0
    = Some (map xOf (simulationData (receive Math messages Sample.world)),
            map (yOf 9) (simulationData (receive Math messages Sample.world)))).
Proof.
  intros Math messages. split; [reflexivity|].
  exact (charts_replay_history Math Sample.random messages eq_refl 9%nat
           "efficiency-chart" 0%nat eq_refl).
Defined.

(** ** The messages the page handles to the end *)

Lemma consume_scene Math current (w : World) :
  pvVisualization (exec (consume Math current) w)
  = exec (PVVisualization.updateFromData Math current) <$> pvVisualization w.
Proof.
  destruct w as [registry history [sc|] line text panel p];
    unfold consume, exec, bind, modify, ifVisualization, plotly, zoom; cbn.
  - destruct (PVVisualization.updateFromData Math current sc) as [[[]|e] sc']; cbn;
      [|reflexivity].
    destruct (updateCharts current p) as [c p']. reflexivity.
  - destruct (updateCharts current p) as [c p']. reflexivity.
Qed.

Lemma handleSimulationData_scene Math (msg : Message) (w : World) :
  pvVisualization (exec (handleSimulationData Math msg) w) = pvVisualization w \/
  exists current,
    pvVisualization (exec (handleSimulationData Math msg) w)
    = exec (PVVisualization.updateFromData Math current) <$> pvVisualization w.
Proof.
  destruct (displayable msg) eqn:Hd.
  - pose proof (feed_shown msg w) as Hf. unfold feed in Hf. injection Hf as _ F2 _.
    assert (E : exec (handleSimulationData Math msg) w
                = match current_data msg with
                  | Some current => exec (consume Math current) (shown msg w)
                  | None => shown msg w
                  end).
    { unfold exec. rewrite (handleSimulationData_run Math msg w Hd).
      destruct (current_data msg); reflexivity. }
    rewrite E. destruct (current_data msg) as [current|]; [|left; exact F2].
    right. exists current. rewrite consume_scene, F2. reflexivity.
  - destruct (handleSimulationData_stops Math msg w Hd) as [e He].
    left. unfold exec. rewrite He. destruct (progress msg); reflexivity.
Qed.

(** The charts are drawn and the scene has its four sensors, whatever
    messages have come. *)
Lemma receive_ready Math (messages : list Message) : forall w : World,
  (drawn (plots w) /\ aligned (plots w)) ->
  (exists sc, pvVisualization w = Some sc /\ length (PVVisualization.sensors sc) = 4%nat) ->
  (drawn (plots (receive Math messages w)) /\ aligned (plots (receive Math messages w))) /\
  (exists sc, pvVisualization (receive Math messages w) = Some sc
              /\ length (PVVisualization.sensors sc) = 4%nat).
Proof.
  induction messages as [|msg messages IH]; intros w Hshape Hscene; [now split|].
  change (receive Math (msg :: messages) w)
    with (receive Math messages (exec (handleSimulationData Math msg) w)).
  apply IH.
  - destruct (handleSimulationData_plots Math msg w) as [->|[current ->]];
      [exact Hshape | now apply updateCharts_keeps_shape].
  - destruct Hscene as (sc & Hsc & Hfour).
    destruct (handleSimulationData_scene Math msg w) as [->|[current ->]];
      [now exists sc|].
    rewrite Hsc. eexists. split; [reflexivity|].
    pose proof (updateFromData_structure Math current sc) as Hs.
    unfold SceneShape.structure in Hs. injection Hs as _ Hs _. now rewrite Hs.
Qed.

Lemma consume_completed Math current sc (w : World) :
  drawn (plots w) ->
  pvVisualization w = Some sc ->
  length (PVVisualization.sensors sc) = 4%nat ->
  completed (outcome (consume Math current) w)
  = match sensor_readings current with
    | Some readings => (length readings <=? 4)%nat
    | None => false
    end.
Proof.
  intros Hdrawn Hsc Hfour.
  pose proof (updateFromData_completed Math current sc) as Hscene.
  rewrite Hfour in Hscene.
  assert (Hcharts : completed (outcome (updateCharts current) (plots w))
                    = match sensor_readings current with Some _ => true | None => false end).
  { destruct (sensor_readings current) as [readings|] eqn:Hr.
    - destruct (updateCharts_appends current readings (plots w) Hr Hdrawn) as [-> _].
      reflexivity.
    - now destruct (updateCharts_stops current (plots w) Hr Hdrawn) as [-> _]. }
  unfold outcome in *.
  destruct w as [registry history scene line text panel p]. simpl in *. subst scene.
  unfold consume, bind, modify, ifVisualization, plotly, zoom. cbn.
  destruct (PVVisualization.updateFromData Math current sc) as [[[]|e] sc']; cbn in *.
  - destruct (updateCharts current p) as [c p']. cbn in *. rewrite Hcharts.
    destruct (sensor_readings current); [exact Hscene | reflexivity].
  - destruct (sensor_readings current); [exact Hscene | discriminate Hscene].
Qed.

(** X20.  On the loaded page, after any messages whatever, the handler
    completes on a message exactly when the message is chartable: its
    progress and its statistics are numbers, and its Snapshot, if it has
    one, has sensor_readings, four at most.  Every other message makes it
    throw: in the display, in the scene (more readings than sensors), or in
    [updateCharts] (no readings). *)
Theorem handleSimulationData_completes_iff_chartable
    (Math : MathObject) (random : nat -> float) (messages : list Message) (msg : Message) :
  completed (outcome (handleSimulationData Math msg)
                     (receive Math messages (loaded random)))
  = chartable msg.
Proof.
  destruct (receive_ready Math messages (loaded random)) as ([Hdrawn _] & sc & Hsc & Hfour).
  - split; [apply drawn_loaded | apply aligned_loaded].
  - exists (PVVisualization.constructor random). split; reflexivity.
  - generalize dependent (receive Math messages (loaded random)). intros w Hdrawn Hsc.
    unfold chartable. destruct (displayable msg) eqn:Hd.
    + unfold outcome. rewrite (handleSimulationData_run Math msg w Hd).
      destruct (current_data msg) as [current|]; [|reflexivity].
      pose proof (feed_shown msg w) as Hf. unfold feed in Hf. injection Hf as _ F2 F3.
      apply (consume_completed Math current sc); [now rewrite F3 | now rewrite F2 | exact Hfour].
    + destruct (handleSimulationData_stops Math msg w Hd) as [e He].
      unfold outcome. rewrite He. reflexivity.
Qed.

End DashboardMore.

(* ================================================================== *)
(** * The controls and the socket *)
(* ================================================================== *)

Section ControlsFacts.
Import JS Telemetry Dashboard History Controls.
#[local] Open Scope float_scope.

Lemma dashboard_run {A} (m : script World A) (p : Page) :
  dashboard m p = (outcome m (world p), with_world (exec m (world p)) p).
Proof. unfold dashboard, zoom, outcome, exec. destruct (m (world p)); reflexivity. Qed.

Lemma dashboard_world {A} (m : script World A) (p : Page) :
  world (exec (dashboard m) p) = exec m (world p).
Proof. unfold exec at 1. rewrite dashboard_run. reflexivity. Qed.

Lemma sendStartRequest_settled_run (r : reply) (p : Page) :
  sendStartRequest_settled r p
  = (Normal tt,
     match r with
     | Response _ (Some _) =>
         {| world := with_status
                       match charts (world p) with
                       | [] => "Simulation started"
                       | _ :: _ => "Error starting simulation"
                       end (world p);
            start_disabled := true; pause_disabled := false |}
     | _ => with_world (with_status "Error starting simulation" (world p)) p
     end).
Proof.
  destruct r as [|code [data|]]; try reflexivity.
  unfold sendStartRequest_settled, catch, bind, modify, dashboard, zoom, updateStatus.
  simpl. rewrite resetCharts_run. simpl. destruct (charts (world p)); reflexivity.
Qed.

(** X14.  How a start request ends.  The handlers never throw.  When the
    fetch fails, or the body of the response is not JSON, only the status
    line changes, to the error message.  Any response with a JSON body,
    whatever its HTTP status and whatever the body says, is taken as a
    start: Start is disabled and Pause enabled.  As [resetCharts] throws
    once charts are registered, the status line then ends as the error
    message, not as the started one, and the buttons stay switched; the
    history, the scene and the plots are as they were in every case. *)
Theorem sendStartRequest_settled_effect (r : reply) (p : Page) :
  let p' := exec (sendStartRequest_settled r) p in
  outcome (sendStartRequest_settled r) p = Normal tt /\
  feed (world p') = feed (world p) /\
  match r with
  | Response _ (Some _) =>
      start_disabled p' = true /\ pause_disabled p' = false /\
      world p' = with_status
                   match charts (world p) with
                   | [] => "Simulation started"
                   | _ :: _ => "Error starting simulation"
                   end (world p)
  | _ => p' = with_world (with_status "Error starting simulation" (world p)) p
  end.
Proof.
  intros p'. subst p'. unfold outcome, exec. rewrite sendStartRequest_settled_run.
  destruct r as [|code [data|]]; repeat split.
Qed.

(** ** The buttons *)

Lemma listener_buttons Math (e : event) (p : Page) :
  let p' := exec (listener Math e) p in
  start_disabled p'
  = (if setsButtons e then match e with StartSettled _ => true | _ => false end
     else start_disabled p) /\
  pause_disabled p'
  = (if setsButtons e then match e with StartSettled _ => false | _ => true end
     else pause_disabled p).
Proof.
  intros p'. subst p'. destruct e as [| |data| | | |r]; simpl;
    try (unfold exec; rewrite dashboard_run; split; reflexivity);
    try (split; reflexivity).
  unfold exec. rewrite sendStartRequest_settled_run.
  destruct r as [|code [data|]]; split; reflexivity.
Qed.

Lemma listener_exclusive Math (e : event) (p : Page) :
  exclusive p = true -> exclusive (exec (listener Math e) p) = true.
Proof.
  intros Hp. destruct (listener_buttons Math e p) as [H1 H2].
  unfold exclusive in *. rewrite H1, H2.
  destruct (setsButtons e); [destruct e; reflexivity | exact Hp].
Qed.

Lemma run_exclusive Math (events : list event) : forall p : Page,
  exclusive p = true -> exclusive (run Math events p) = true.
Proof.
  induction events as [|e events IH]; intros p Hp; [exact Hp|].
  change (run Math (e :: events) p) with (run Math events (exec (listener Math e) p)).
  apply IH, listener_exclusive, Hp.
Qed.

(** X15.  From the first pause, completion of the simulation or answered
    start request on, exactly one of the buttons Start and Pause is enabled,
    whatever events follow and whether or not their handlers throw: a pause
    or a completion enables Start and disables Pause, an answered start
    request does the opposite, and no other event touches the buttons. *)
Theorem buttons_exclusive (Math : MathObject) (e : event) (events : list event) (p : Page) :
  setsButtons e = true ->
  let after := exec (listener Math e) p in
  start_disabled after = match e with StartSettled _ => true | _ => false end /\
  pause_disabled after = negb (start_disabled after) /\
  exclusive (run Math (e :: events) p) = true.
Proof.
  intros He after. subst after. destruct (listener_buttons Math e p) as [H1 H2].
  rewrite He in H1, H2.
  assert (Hx : exclusive (exec (listener Math e) p) = true).
  { unfold exclusive. rewrite H1, H2. destruct e; reflexivity. }
  split; [exact H1|]. split.
  - rewrite H1, H2. destruct e; reflexivity.
  - change (run Math (e :: events) p) with (run Math events (exec (listener Math e) p)).
    apply run_exclusive, Hx.
Qed.

Lemma buttons_exclusive_witness :
  whatever_the_engine (fun Math =>
    let p := {| world := Sample.world; start_disabled := false; pause_disabled := false |} in
    let events := [SimulationData (Sample.message Sample.complete); Reset;
                   StartSettled NetworkFailure] in
    setsButtons Pause = true /\
    exclusive p = false /\
    exclusive (run Math (Pause :: events) p) = true).
Proof.
  intros Math p events. split; [reflexivity|]. split; [reflexivity|].
  exact (proj2 (proj2 (buttons_exclusive Math Pause events p eq_refl))).
Defined.

(** ** What reaches the history, the scene and the plots *)

Lemma consume_feed Math current (w1 w2 : World) :
  feed w1 = feed w2 ->
  feed (exec (consume Math current) w1) = feed (exec (consume Math current) w2).
Proof.
  destruct w1 as [r1 h1 v1 l1 t1 s1 p1], w2 as [r2 h2 v2 l2 t2 s2 p2].
  unfold feed. simpl. intros [= -> -> ->].
  unfold consume, exec, bind, modify, ifVisualization, plotly, zoom.
  destruct v2 as [sc|]; cbn.
  - destruct (PVVisualization.updateFromData Math current sc) as [[[]|e] sc']; cbn;
      [|reflexivity].
    destruct (updateCharts current p2) as [c p']. reflexivity.
  - destruct (updateCharts current p2) as [c p']. reflexivity.
Qed.

Lemma handleSimulationData_feed Math (msg : Message) (w1 w2 : World) :
  feed w1 = feed w2 ->
  feed (exec (handleSimulationData Math msg) w1)
  = feed (exec (handleSimulationData Math msg) w2).
Proof.
  intros H. destruct (displayable msg) eqn:Hd.
  - unfold exec. rewrite !(handleSimulationData_run Math msg _ Hd).
    destruct (current_data msg) as [current|].
    + apply consume_feed. now rewrite !feed_shown.
    + simpl. now rewrite !feed_shown.
  - destruct (handleSimulationData_stops Math msg w1 Hd) as [e1 E1].
    destruct (handleSimulationData_stops Math msg w2 Hd) as [e2 E2].
    unfold exec. rewrite E1, E2. simpl.
    destruct (progress msg); exact H.
Qed.

Lemma resetSimulation_feed (w : World) :
  feed (exec resetSimulation w) = ([], pvVisualization w, plots w).
Proof.
  assert (Hrest : forall {B} (f : World -> B),
             (forall m w, f (with_status m w) = f w) ->
             (forall t w, f (with_progress_text t w) = f w) ->
             (forall l w, f (with_summary l w) = f w) ->
             preserves f
               (bind resetCharts (fun _ =>
                bind (updateStatus "Simulation reset") (fun _ =>
                bind (updateProgress (VNumber 0)) (fun _ => updateSummaryStats []))))).
  { intros B f H2 H4 H5.
    apply preserves_bind;
      [intros s; unfold exec; rewrite resetCharts_run; now destruct (charts s)|intros _].
    apply preserves_bind; [now apply preserves_modify | intros _].
    apply preserves_bind; [now apply updateProgress_preserves | intros _].
    now apply updateSummaryStats_preserves. }
  unfold resetSimulation. rewrite exec_bind. simpl. apply (Hrest _ feed); reflexivity.
Qed.

Lemma listener_feed Math (e : event) (p1 p2 : Page) :
  feed (world p1) = feed (world p2) ->
  feed (world (exec (listener Math e) p1))
  = if carriesData e then feed (world (exec (listener Math e) p2)) else feed (world p2).
Proof.
  intros H. destruct e as [| |data| | | |r]; simpl; try exact H.
  - rewrite !dashboard_world. now apply handleSimulationData_feed.
  - rewrite !dashboard_world, !resetSimulation_feed.
    unfold feed in H. now injection H as _ -> ->.
  - unfold exec. rewrite sendStartRequest_settled_run.
    destruct r as [|code [data|]]; exact H.
Qed.

(** X16.  The history, the scene and the plots depend on the data messages
    and the resets alone: over any run of events they end as if the
    connection events, the pauses, the completions and the start requests
    had not happened.  In particular a pause stops nothing: a message that
    arrives after it is stored, shown and charted as before. *)
Theorem feed_ignores_controls (Math : MathObject) (events : list event) (p : Page) :
  feed (world (run Math events p))
  = feed (world (run Math (List.filter carriesData events) p)).
Proof.
  assert (H : feed (world p) = feed (world p)) by reflexivity.
  revert H. generalize p at 1 3. generalize p. clear p.
  induction events as [|e events IH]; intros p2 p1 H; [exact H|].
  change (run Math (e :: events) p1) with (run Math events (exec (listener Math e) p1)).
  pose proof (listener_feed Math e p1 p2 H) as Hstep.
  simpl List.filter. destruct (carriesData e).
  - change (run Math (e :: List.filter carriesData events) p2)
      with (run Math (List.filter carriesData events) (exec (listener Math e) p2)).
    apply IH, Hstep.
  - apply IH, Hstep.
Qed.

(** ** The shape of the charts, over every event *)

Lemma listener_plots Math (e : event) (p : Page) :
  plots (world (exec (listener Math e) p)) = plots (world p) \/
  exists current,
    plots (world (exec (listener Math e) p)) = exec (updateCharts current) (plots (world p)).
Proof.
  destruct (carriesData e) eqn:He.
  - destruct e as [| |data| | | |r]; try discriminate He; simpl.
    + rewrite dashboard_world. apply handleSimulationData_plots.
    + left. rewrite dashboard_world.
      pose proof (resetSimulation_feed (world p)) as Hf. unfold feed in Hf.
      now injection Hf.
  - left. pose proof (listener_feed Math e p p eq_refl) as Hf. rewrite He in Hf.
    unfold feed in Hf. now injection Hf.
Qed.

(** X17.  On the loaded page, whatever events arrive, in whatever order,
    with payloads of whatever kind, and whether or not their handlers throw:
    the four plots keep the traces [initCharts] gave them (2, 3, 4 and 1),
    and within each plot all traces have the same x-values and as many
    y-values as x-values.  An update that throws half-way leaves whole
    plots updated or not, never a plot with some of its traces extended. *)
Theorem charts_keep_their_shape
    (Math : MathObject) (random : nat -> float) (start pause : bool)
    (events : list event) :
  let p := run Math events
             {| world := loaded random; start_disabled := start; pause_disabled := pause |} in
  drawn (plots (world p)) /\ aligned (plots (world p)).
Proof.
  intros p. subst p.
  assert (Hstart : drawn (plots (loaded random)) /\ aligned (plots (loaded random)))
    by (split; [apply drawn_loaded | apply aligned_loaded]).
  change (plots (loaded random))
    with (plots (world {| world := loaded random; start_disabled := start;
                          pause_disabled := pause |})) in Hstart.
  revert Hstart. generalize {| world := loaded random; start_disabled := start;
                               pause_disabled := pause |}.
  induction events as [|e events IH]; intros p Hp; [exact Hp|].
  change (run Math (e :: events) p) with (run Math events (exec (listener Math e) p)).
  apply IH. destruct (listener_plots Math e p) as [->|[current ->]]; [exact Hp|].
  apply updateCharts_keeps_shape, Hp.
Qed.

End ControlsFacts.

(* ================================================================== *)
(** * More about the sky *)
(* ================================================================== *)

Section SkyFacts.
Import JS Telemetry PVVisualization.

(** X18.  The clouds stay within the bound over any run of the scene: if
    the x-coordinate of every cloud is at most 5, it is so after any number
    of animation frames and Snapshots, in any order, whether the Snapshots
    are applied to the end or [updateFromData] throws on the way. *)
Theorem run_keeps_clouds_within_bound (Math : MathObject) (ticks : list tick) (s : scene) :
  Forall (fun cloud => withinBound cloud = true) (clouds s) ->
  Forall (fun cloud => withinBound cloud = true) (clouds (run Math ticks s)).
Proof.
  revert s. induction ticks as [|t ticks IH]; intros s Hs; [exact Hs|].
  change (run Math (t :: ticks) s) with (run Math ticks (exec (step Math t) s)).
  apply IH. destruct t as [|data]; [exact Hs|]. simpl.
  rewrite updateFromData_clouds.
  destruct (completed _); [|exact Hs].
  apply List.Forall_map. eapply Forall_impl; [exact Hs|].
  intros cloud. apply drift_withinBound.
Qed.

Lemma run_keeps_clouds_within_bound_witness :
  whatever_the_engine (fun Math =>
    let ticks := [Data Sample.complete; Frame; Data Sample.untilted; Data Sample.night] in
    Forall (fun cloud => withinBound cloud = true) (clouds Sample.scene) /\
    Forall (fun cloud => withinBound cloud = true) (clouds (run Math ticks Sample.scene))).
Proof.
  intros Math ticks.
  assert (H : Forall (fun cloud => withinBound cloud = true) (clouds Sample.scene))
    by (vm_compute; repeat constructor).
  split; [exact H | exact (run_keeps_clouds_within_bound Math ticks Sample.scene H)].
Defined.

End SkyFacts.
